(** * Inventory intelligence engine

    A shallow embedding of the analytics module of the inventory
    application (demand velocity, inventory cover, aging score, dead-stock
    detection, transfer optimisation, strategic insights and product
    forecasts), with the properties its specification states.

    Numbers: a JavaScript number is modelled by [number]: an exact
    rational, the two infinities, or NaN.  Arithmetic is exact: the
    rounding of IEEE binary64 and the sign of zero are not modelled.
    Properties that rest on sums being exact are therefore stated for
    sales in whole quantities ([wholeSales]), where binary64 is exact too.
    Records received from the data store carry finite numbers (type [Q]);
    an optional field that is missing ([undefined]) is [None].

    Dates: a [Date] is modelled by its time value in milliseconds since the
    epoch, [None] for an invalid date.  The clock, the time zone and the
    parsing and formatting routines of the host are the fields of [Host];
    one clock reading serves a whole call.  [getDate] and [setDate] follow
    ECMAScript: they work on the local calendar day, through the offset
    [LocalTZA] of the host's zone, and [setDate] truncates a fractional day
    of the month.  The range limit of time values is not modelled. *)

From Stdlib Require Import ZArith QArith Qabs Qround Qreduction List Ascii String Bool Lia.
From Stdlib Require Import Sorted Permutation DecimalString Lqa.
Import ListNotations.

Local Open Scope Q_scope.

(** ** JavaScript numbers *)

Module Num.

Inductive number : Type :=
| Fin (q : Q)
| PosInf
| NegInf
| NaN.

Definition of_Z (z : Z) : number := Fin (inject_Z z).

Definition zero : number := Fin 0.

(** Rational tests that compute. *)
Definition Qltb (a b : Q) : bool := negb (Qle_bool b a).
Definition Qis0 (a : Q) : bool := Qeq_bool a 0.

Definition neg (a : number) : number :=
  match a with
  | Fin q => Fin (Qred (- q))
  | PosInf => NegInf
  | NegInf => PosInf
  | NaN => NaN
  end.

Definition add (a b : number) : number :=
  match a, b with
  | NaN, _ | _, NaN => NaN
  | Fin x, Fin y => Fin (Qred (x + y))
  | PosInf, NegInf | NegInf, PosInf => NaN
  | PosInf, _ | _, PosInf => PosInf
  | NegInf, _ | _, NegInf => NegInf
  end.

Definition sub (a b : number) : number :=
  match a, b with
  | NaN, _ | _, NaN => NaN
  | Fin x, Fin y => Fin (Qred (x - y))
  | PosInf, PosInf | NegInf, NegInf => NaN
  | PosInf, _ | _, NegInf => PosInf
  | NegInf, _ | _, PosInf => NegInf
  end.

(** The infinity of the sign of [q], NaN when [q] is zero. *)
Definition inf_times (pos : bool) (q : Q) : number :=
  if Qis0 q then NaN
  else if Bool.eqb pos (Qltb 0 q) then PosInf else NegInf.

Definition mul (a b : number) : number :=
  match a, b with
  | NaN, _ | _, NaN => NaN
  | Fin x, Fin y => Fin (Qred (x * y))
  | PosInf, Fin y | Fin y, PosInf => inf_times true y
  | NegInf, Fin y | Fin y, NegInf => inf_times false y
  | PosInf, PosInf | NegInf, NegInf => PosInf
  | PosInf, NegInf | NegInf, PosInf => NegInf
  end.

Definition div (a b : number) : number :=
  match a, b with
  | NaN, _ | _, NaN => NaN
  | Fin x, Fin y =>
      if Qis0 y then
        (if Qis0 x then NaN else if Qltb 0 x then PosInf else NegInf)
      else Fin (Qred (x / y))
  | Fin _, (PosInf | NegInf) => Fin 0
  | (PosInf | NegInf), (PosInf | NegInf) => NaN
  | PosInf, Fin y => if Qltb y 0 then NegInf else PosInf
  | NegInf, Fin y => if Qltb y 0 then PosInf else NegInf
  end.

(** [a < b]; false as soon as one side is NaN. *)
Definition ltb (a b : number) : bool :=
  match a, b with
  | NaN, _ | _, NaN => false
  | Fin x, Fin y => Qltb x y
  | NegInf, (Fin _ | PosInf) => true
  | Fin _, PosInf => true
  | _, _ => false
  end.

(** [a <= b]. *)
Definition leb (a b : number) : bool :=
  match a, b with
  | NaN, _ | _, NaN => false
  | Fin x, Fin y => Qle_bool x y
  | NegInf, _ => true
  | _, PosInf => true
  | _, _ => false
  end.

Definition gtb (a b : number) : bool := ltb b a.
Definition geb (a b : number) : bool := leb b a.

(** [a === b] on numbers. *)
Definition strict_eqb (a b : number) : bool :=
  match a, b with
  | Fin x, Fin y => Qeq_bool x y
  | PosInf, PosInf | NegInf, NegInf => true
  | _, _ => false
  end.

Definition Math_floor (a : number) : number :=
  match a with
  | Fin q => of_Z (Qfloor q)
  | _ => a
  end.

Definition Math_ceil (a : number) : number :=
  match a with
  | Fin q => of_Z (Qceiling q)
  | _ => a
  end.

Definition Math_min (a b : number) : number :=
  match a, b with
  | NaN, _ | _, NaN => NaN
  | _, _ => if ltb b a then b else a
  end.

Definition Math_max (a b : number) : number :=
  match a, b with
  | NaN, _ | _, NaN => NaN
  | _, _ => if ltb a b then b else a
  end.

(** [x || 0] on a number: NaN and zero are falsy. *)
Definition or_zero (a : number) : number :=
  match a with
  | NaN => zero
  | _ => a
  end.

(** ToNumber of a possibly missing numeric field: [undefined] is NaN. *)
Definition of_field (f : option Q) : number :=
  match f with
  | Some q => Fin q
  | None => NaN
  end.

(** [f || 0] on a possibly missing numeric field. *)
Definition field_or_zero (f : option Q) : number :=
  match f with
  | Some q => Fin q
  | None => zero
  end.

Definition is_finite (a : number) : Prop :=
  match a with Fin _ => True | _ => False end.

End Num.

Export Num.

Declare Scope num_scope.
Delimit Scope num_scope with num.
Bind Scope num_scope with number.
Infix "+" := add : num_scope.
Infix "-" := sub : num_scope.
Infix "*" := mul : num_scope.
Infix "/" := div : num_scope.
Infix "<?" := ltb : num_scope.
Infix "<=?" := leb : num_scope.
Infix ">?" := gtb : num_scope.
Infix ">=?" := geb : num_scope.
Infix "===" := strict_eqb (at level 70) : num_scope.

(** Numeric literals of the source. *)
Definition lit (n d : positive) : number := Fin (Z.pos n # d).

(** ** Host environment: clock, dates and number formatting *)

Record Host : Type := {
  (** time value read by [new Date()] *)
  clock : Z;
  (** ECMAScript's [LocalTZA(t, isUTC)]: the offset of local time from
      UTC, in milliseconds, at the UTC time [t] ([isUTC] true) or at the
      local time [t] ([isUTC] false); offsets stay within a day *)
  LocalTZA : Z -> bool -> Z;
  LocalTZA_range : forall t isUTC, (Z.abs (LocalTZA t isUTC) <= 86400000)%Z;
  (** time value of [new Date(text)], [None] for an invalid date *)
  Date_parse : string -> option Z;
  (** [toISOString] of a valid date *)
  Date_toISOString : Z -> string;
  (** the text a template literal gives for a number *)
  Number_toString : number -> string;
  Number_toLocaleString : number -> string
}.

Module Date.

Definition t : Type := option Z.

Definition epoch : t := Some 0%Z.

(** Relational operators on dates compare time values; a comparison with an
    invalid date is false. *)
Definition geb (a b : t) : bool :=
  match a, b with
  | Some x, Some y => (y <=? x)%Z
  | _, _ => false
  end.

Definition leb (a b : t) : bool := geb b a.

Definition gtb (a b : t) : bool :=
  match a, b with
  | Some x, Some y => (y <? x)%Z
  | _, _ => false
  end.

Definition getTime (a : t) : number :=
  match a with
  | Some x => of_Z x
  | None => NaN
  end.

Definition msPerDay : Z := 86400000.

(** ECMAScript's [DateFromTime]: the day of the month, 1 to 31, of a time
    value, by the civil calendar counted from the days since the epoch. *)
Definition DateFromTime (tv : Z) : Z :=
  (let z := tv / msPerDay + 719468 in
   let era := z / 146097 in
   let doe := z - era * 146097 in
   let yoe := (doe - doe / 1460 + doe / 36524 - doe / 146096) / 365 in
   let doy := doe - (365 * yoe + yoe / 4 - yoe / 100) in
   let mp := (5 * doy + 2) / 153 in
   doy - (153 * mp + 2) / 5 + 1)%Z.

(** ECMAScript's [ToIntegerOrInfinity] on a finite number: truncation
    towards zero. *)
Definition ToInteger (q : Q) : Z :=
  if Qle_bool 0 q then Qfloor q else Qceiling q.

Definition LocalTime (h : Host) (tv : Z) : Z := (tv + LocalTZA h tv true)%Z.

Definition UTC (h : Host) (tv : Z) : Z := (tv - LocalTZA h tv false)%Z.

(** [d.getDate()] of a valid date. *)
Definition getDate (h : Host) (tv : Z) : number :=
  of_Z (DateFromTime (LocalTime h tv)).

(** The time value after [d.setDate(date)] on a valid date [d]: the day
    [date], truncated, of the month of [d] at the local time of day of
    [d]; invalid when [date] is not finite. *)
Definition setDate (h : Host) (tv : Z) (date : number) : t :=
  match date with
  | Fin q =>
      let local := LocalTime h tv in
      Some (UTC h (local + (ToInteger q - DateFromTime local) * msPerDay))%Z
  | _ => None
  end.

End Date.

(** ** Records of the data store *)

Record Item : Type := {
  item_id : string;
  item_quantity : Q
}.

Record Sale : Type := {
  sale_date : string;
  sale_locationId : string;
  sale_items : list Item
}.

(** [product_stock] lists the entries of the stock object in the order
    [Object.values] enumerates them. *)
Record Product : Type := {
  product_id : string;
  product_name : string;
  product_cost : option Q;
  product_price : option Q;
  product_stock : list (string * Q)
}.

(** ** Results *)

Inductive InsightType : Type :=
| ProfitOptimization
| RiskMitigation
| CashFlow
| Growth.

Inductive ActionType : Type :=
| TRANSFER
| LIQUIDATE
| REORDER
| PRICE_ADJUST.

Inductive Metadata : Type :=
| TransferMeta (productId from to : string) (qty : number)
| LiquidateMeta (productId : string) (currentStock : number)
| ReorderMeta (productId : string) (reorderQty : number).

Record StrategicInsight : Type := {
  insight_id : string;
  insight_type : InsightType;
  problem : string;
  impact : string;
  recommendedAction : string;
  roiImpact : string;
  confidenceScore : number;
  actionType : ActionType;
  metadata : Metadata
}.

Inductive StockStatus : Type :=
| Overstock
| StockoutRisk
| Healthy
| DeadStock.

Inductive Trend : Type :=
| HighGrowth
| Stable
| Declining
| New.

Record HistoryPoint : Type := {
  point_date : string;
  point_value : number
}.

Record ProductForecast : Type := {
  productId : string;
  name : string;
  currentMonthlySales : number;
  previousMonthlySales : number;
  growthRate : number;
  trend : Trend;
  forecastedSales : number;
  confidence : number;
  history : list HistoryPoint
}.

(** ** Array and object helpers *)

(** [Array.prototype.sort] with a comparator: a stable sort, as ECMAScript
    2019 requires.  An element moves behind those the comparator ranks
    strictly before it ([cmp x y > 0]) and stays in front of the others; a
    comparator result of NaN counts as 0. *)
Fixpoint sort_insert {A : Type} (cmp : A -> A -> number) (x : A) (l : list A)
  : list A :=
  match l with
  | [] => [x]
  | y :: l' =>
      if (cmp x y >? zero)%num then y :: sort_insert cmp x l' else x :: l
  end.

Definition Array_sort {A : Type} (cmp : A -> A -> number) (l : list A)
  : list A :=
  fold_right (sort_insert cmp) [] l.

(** [arr.slice(0, n)]. *)
Definition slice0 {A : Type} (n : nat) (l : list A) : list A := firstn n l.

(** [obj[key]] on an object used as a map. *)
Fixpoint lookup {V : Type} (key : string) (obj : list (string * V))
  : option V :=
  match obj with
  | [] => None
  | (k, v) :: rest => if String.eqb k key then Some v else lookup key rest
  end.

(** [obj[key] = v]: an existing key keeps its place, a new key goes last. *)
Fixpoint assign {V : Type} (key : string) (v : V) (obj : list (string * V))
  : list (string * V) :=
  match obj with
  | [] => [(key, v)]
  | (k, w) :: rest =>
      if String.eqb k key then (k, v) :: rest
      else (k, w) :: assign key v rest
  end.

(** [text.split('T')[0]]. *)
Fixpoint before_T (text : string) : string :=
  match text with
  | EmptyString => EmptyString
  | String c rest =>
      if Ascii.eqb c "T"%char then EmptyString else String c (before_T rest)
  end.

(** [Object.values(stock).reduce((a, b) => a + b, 0)]. *)
Definition totalStockOf (p : Product) : number :=
  fold_left (fun a b => (a + Fin b)%num) (map snd (product_stock p)) zero.

(** [items.find(i => i.id === productId)]. *)
Definition findItem (productId : string) (its : list Item) : option Item :=
  find (fun i => String.eqb (item_id i) productId) its.

(** [items.some(i => i.id === productId)]. *)
Definition hasItem (productId : string) (its : list Item) : bool :=
  existsb (fun i => String.eqb (item_id i) productId) its.

(** A template literal: the concatenation of its parts. *)
Definition template (parts : list string) : string :=
  String.concat EmptyString parts.

(** ** The engine *)

Section Engine.

Variable h : Host.

Local Open Scope num_scope.

Definition now : Date.t := Some (clock h).

(** *** 1. Data intelligence preparation *)

(** The quantity a sale contributes for a product: that of the first item
    with the product's id, 0 without one. *)
Definition soldQty (productId : string) (sale : Sale) : number :=
  match findItem productId (sale_items sale) with
  | Some item => Fin (item_quantity item)
  | None => zero
  end.

(** [new Date()] followed by [setDate(now.getDate() - days)]: the start of
    a window of [days] days. *)
Definition daysAgo (days : number) : Date.t :=
  Date.setDate h (clock h) (Date.getDate h (clock h) - days).

(** The source's default for [days], which every caller in the engine
    uses, is 30. *)
Definition calculateDemandVelocity
  (productId : string) (sales : list Sale) (days : number) : number :=
  match sales with
  | [] => zero
  | _ =>
      let pastDate := daysAgo days in
      let relevantSales :=
        filter (fun s =>
                  let saleDate := Date_parse h (sale_date s) in
                  Date.geb saleDate pastDate && Date.leb saleDate now)
               sales in
      let totalQty :=
        fold_left (fun acc sale => acc + soldQty productId sale)
                  relevantSales zero in
      totalQty / days
  end.

Definition calculateInventoryCover (stockQuantity velocity : number)
  : number :=
  if velocity <=? zero then
    (if stockQuantity >? zero then lit 999 1 else zero)
  else stockQuantity / velocity.

(** [(new Date().getTime() - d.getTime()) / (1000 * 3600 * 24)]. *)
Definition daysSince (d : Date.t) : number :=
  (Date.getTime now - Date.getTime d) / (lit 1000 1 * lit 3600 1 * lit 24 1).

Definition calculateAgingScore
  (lastMovementDate : option string) (coverDays : number) : number :=
  match lastMovementDate with
  | None => zero
  | Some EmptyString => zero
  | Some text =>
      let daysSinceMovement := daysSince (Date_parse h text) in
      let safeCoverDays :=
        if coverDays === zero then lit 1 1 else coverDays in
      daysSinceMovement / safeCoverDays
  end.

(** *** 2. Core analytical algorithms *)

Definition analyzeStockHealth
  (coverDays optimalCover safetyStockDays : number) : StockStatus :=
  if coverDays >? lit 2 1 * optimalCover then Overstock
  else if coverDays <? safetyStockDays then StockoutRisk
  else Healthy.

(** The loop that keeps the latest date among the sales holding the
    product, starting from the epoch.  (The constant [lastSale] the source
    computes before it is never read.) *)
Definition lastSaleDateOf (p : Product) (sales : list Sale) : Date.t :=
  fold_left
    (fun lastSaleDate s =>
       if hasItem (product_id p) (sale_items s) then
         let d := Date_parse h (sale_date s) in
         if Date.gtb d lastSaleDate then d else lastSaleDate
       else lastSaleDate)
    sales Date.epoch.

Definition detectDeadStock
  (product : Product) (sales : list Sale) (thresholdDays : number) : bool :=
  let lastSaleDate := lastSaleDateOf product sales in
  let daysSinceLastSale := daysSince lastSaleDate in
  let totalStock := totalStockOf product in
  (totalStock >? zero) && (daysSinceLastSale >? thresholdDays).

(** *** 3. Multi-warehouse transfer optimisation *)

Definition warehouseIds : list string :=
  ["warehouse-a"; "store-downtown"; "north-branch"; "city-center-store"]%string.

Record LocStat : Type := {
  locId : string;
  loc_stock : number;
  loc_velocity : number;
  loc_cover : number
}.

Definition locStatsOf (p : Product) (sales : list Sale) : list LocStat :=
  map (fun loc =>
         let stock :=
           match lookup loc (product_stock p) with
           | Some q => or_zero (Fin q)
           | None => zero
           end in
         let localSales :=
           filter (fun s => String.eqb (sale_locationId s) loc) sales in
         let velocity :=
           calculateDemandVelocity (product_id p) localSales (lit 30 1) in
         let cover := calculateInventoryCover stock velocity in
         {| locId := loc; loc_stock := stock;
            loc_velocity := velocity; loc_cover := cover |})
      warehouseIds.

Definition transferQtyOf (source target : LocStat) : number :=
  Math_floor
    (Math_min (loc_stock source * lit 1 2)
              ((lit 30 1 - loc_cover target) * loc_velocity target)).

Definition marginOf (p : Product) : number :=
  field_or_zero (product_price p) - field_or_zero (product_cost p).

Definition estimatedGainOf (p : Product) (transferQty : number) : number :=
  marginOf p * transferQty.

Definition transferCostOf (transferQty : number) : number :=
  lit 50 1 + transferQty * lit 2 1.

Definition transferInsight
  (p : Product) (source target : LocStat) (transferQty : number)
  : StrategicInsight :=
  {| insight_id :=
       template ["transfer-"; product_id p; "-"; locId source; "-";
                 locId target]%string;
     insight_type := ProfitOptimization;
     problem := template ["Stock imbalance for "; product_name p]%string;
     impact :=
       template ["Potential missed sales in "; locId target]%string;
     recommendedAction :=
       template ["Transfer "; Number_toString h transferQty; " units from ";
                 locId source; " to "; locId target]%string;
     roiImpact :=
       template ["+₹";
                 Number_toString h
                   (Math_floor (estimatedGainOf p transferQty
                                - transferCostOf transferQty))]%string;
     confidenceScore := lit 9 10;
     actionType := TRANSFER;
     metadata :=
       TransferMeta (product_id p) (locId source) (locId target) transferQty
  |}.

(** The body of the innermost loop: the insights one (source, target) pair
    adds. *)
Definition matchPair (p : Product) (source target : LocStat)
  : list StrategicInsight :=
  if loc_stock source >? lit 10 1 then
    let transferQty := transferQtyOf source target in
    if transferQty >? zero then
      if estimatedGainOf p transferQty >? transferCostOf transferQty then
        [transferInsight p source target transferQty]
      else []
    else []
  else [].

Definition transfersOfProduct (sales : list Sale) (p : Product)
  : list StrategicInsight :=
  let locStats := locStatsOf p sales in
  let overstocked := filter (fun l => loc_cover l >? lit 60 1) locStats in
  let starving :=
    filter (fun l => (loc_cover l <? lit 10 1)
                     && (loc_velocity l >? lit 1 10)) locStats in
  flat_map (fun source => flat_map (matchPair p source) starving) overstocked.

Definition findTransferOpportunities
  (products : list Product) (sales : list Sale) : list StrategicInsight :=
  flat_map (transfersOfProduct sales) products.

(** *** 4. Main insight generator *)

Definition capitalBlockedOf (p : Product) : number :=
  totalStockOf p * field_or_zero (product_cost p).

Definition deadStockInsight (p : Product) : StrategicInsight :=
  let totalStock := totalStockOf p in
  let capitalBlocked := capitalBlockedOf p in
  {| insight_id := template ["deadstock-"; product_id p]%string;
     insight_type := CashFlow;
     problem := template ["Dead Stock: "; product_name p]%string;
     impact :=
       template ["₹"; Number_toLocaleString h capitalBlocked;
                 " capital blocked"]%string;
     recommendedAction :=
       template ["Liquidate "; Number_toString h totalStock;
                 " units. Run clearance sale."]%string;
     roiImpact :=
       template ["Recover ~₹";
                 Number_toLocaleString h (capitalBlocked * lit 7 10)]%string;
     confidenceScore := lit 85 100;
     actionType := LIQUIDATE;
     metadata := LiquidateMeta (product_id p) totalStock
  |}.

Definition deadStockOfProduct (sales : list Sale) (p : Product)
  : list StrategicInsight :=
  if detectDeadStock p sales (lit 90 1) then
    if capitalBlockedOf p >? lit 1000 1 then [deadStockInsight p] else []
  else [].

(** [overallDistVelocity * 14 * (p.price - p.cost)]: the fields are read
    as they are, a missing one is [undefined]. *)
Definition profitProtectedOf (p : Product) (overallDistVelocity : number)
  : number :=
  overallDistVelocity * lit 14 1
  * (of_field (product_price p) - of_field (product_cost p)).

Definition reorderInsight
  (p : Product) (overallDistVelocity overallCover : number)
  : StrategicInsight :=
  let reorderQty := Math_ceil (overallDistVelocity * lit 30 1) in
  {| insight_id := template ["reorder-"; product_id p]%string;
     insight_type := RiskMitigation;
     problem := template ["Stockout Risk: "; product_name p]%string;
     impact :=
       template ["Only "; Number_toString h (Math_floor overallCover);
                 " days of stock left"]%string;
     recommendedAction :=
       template ["Place urgent reorder for "; Number_toString h reorderQty;
                 " units"]%string;
     roiImpact :=
       template ["Protect ~₹";
                 Number_toLocaleString h
                   (profitProtectedOf p overallDistVelocity);
                 " profit"]%string;
     confidenceScore := lit 95 100;
     actionType := REORDER;
     metadata := ReorderMeta (product_id p) reorderQty
  |}.

Definition reorderOfProduct (sales : list Sale) (p : Product)
  : list StrategicInsight :=
  let overallDistVelocity :=
    calculateDemandVelocity (product_id p) sales (lit 30 1) in
  let totalStock := totalStockOf p in
  let overallCover := calculateInventoryCover totalStock overallDistVelocity in
  if (overallCover <? lit 14 1) && (overallDistVelocity >? lit 1 2) then
    [reorderInsight p overallDistVelocity overallCover]
  else [].

Definition priorityMap (ty : InsightType) : number :=
  match ty with
  | RiskMitigation => lit 3 1
  | ProfitOptimization => lit 2 1
  | CashFlow => lit 1 1
  | Growth => zero
  end.

Definition byPriority (a b : StrategicInsight) : number :=
  priorityMap (insight_type b) - priorityMap (insight_type a).

(** The insights in the order they are pushed: transfers, dead stock,
    reorders. *)
Definition collectedInsights (products : list Product) (sales : list Sale)
  : list StrategicInsight :=
  findTransferOpportunities products sales
  ++ flat_map (deadStockOfProduct sales) products
  ++ flat_map (reorderOfProduct sales) products.

Definition generateStrategicInsights
  (products : list Product) (sales : list Sale) : list StrategicInsight :=
  slice0 5 (Array_sort byPriority (collectedInsights products sales)).

(** *** 5. Forecasting and growth engine *)

(** The variables the loop over a product's sales updates. *)
Record Windows : Type := {
  currentQty : number;
  previousQty : number;
  dailyHistory : list (string * number)
}.

Definition accumulateSale
  (productId : string) (thirtyDaysAgo sixtyDaysAgo : Date.t)
  (w : Windows) (s : Sale) : Windows :=
  let saleDate := Date_parse h (sale_date s) in
  match findItem productId (sale_items s) with
  | None => w
  | Some item =>
      let qty := Fin (item_quantity item) in
      let dailyHistory' :=
        match saleDate with
        | Some tv =>
            if Date.geb saleDate sixtyDaysAgo then
              let dateStr := before_T (Date_toISOString h tv) in
              let old :=
                match lookup dateStr (dailyHistory w) with
                | Some v => or_zero v
                | None => zero
                end in
              assign dateStr (old + qty) (dailyHistory w)
            else dailyHistory w
        | None => dailyHistory w
        end in
      if Date.geb saleDate thirtyDaysAgo then
        {| currentQty := currentQty w + qty;
           previousQty := previousQty w;
           dailyHistory := dailyHistory' |}
      else if Date.geb saleDate sixtyDaysAgo then
        {| currentQty := currentQty w;
           previousQty := previousQty w + qty;
           dailyHistory := dailyHistory' |}
      else
        {| currentQty := currentQty w;
           previousQty := previousQty w;
           dailyHistory := dailyHistory' |}
  end.

Definition windowsOf (p : Product) (sales : list Sale) : Windows :=
  let thirtyDaysAgo := daysAgo (lit 30 1) in
  let sixtyDaysAgo := daysAgo (lit 60 1) in
  let productSales :=
    filter (fun s => hasItem (product_id p) (sale_items s)) sales in
  fold_left (accumulateSale (product_id p) thirtyDaysAgo sixtyDaysAgo)
            productSales
            {| currentQty := zero; previousQty := zero; dailyHistory := [] |}.

Definition growthRateOf (currentQty previousQty : number) : number :=
  if previousQty >? zero then
    ((currentQty - previousQty) / previousQty) * lit 100 1
  else if currentQty >? zero then lit 100 1
  else zero.

Definition trendOf (currentQty previousQty growthRate : number) : Trend :=
  if (previousQty === zero) && (currentQty >? zero) then New
  else if growthRate >=? lit 20 1 then HighGrowth
  else if growthRate <=? neg (lit 20 1) then Declining
  else Stable.

Definition momentumFactorOf (trend : Trend) : number :=
  match trend with
  | HighGrowth => lit 12 10
  | Declining => lit 9 10
  | _ => lit 1 1
  end.

Definition byHistoryDate (a b : HistoryPoint) : number :=
  Date.getTime (Date_parse h (point_date a))
  - Date.getTime (Date_parse h (point_date b)).

Definition forecastOf (sales : list Sale) (p : Product) : ProductForecast :=
  let w := windowsOf p sales in
  let growthRate := growthRateOf (currentQty w) (previousQty w) in
  let trend := trendOf (currentQty w) (previousQty w) growthRate in
  let baseForecast := currentQty w in
  let momentumFactor := momentumFactorOf trend in
  let forecastedSales := Math_ceil (baseForecast * momentumFactor) in
  let historyArray :=
    Array_sort byHistoryDate
      (map (fun e => {| point_date := fst e; point_value := snd e |})
           (dailyHistory w)) in
  {| productId := product_id p;
     name := product_name p;
     currentMonthlySales := currentQty w;
     previousMonthlySales := previousQty w;
     growthRate := growthRate;
     trend := trend;
     forecastedSales := forecastedSales;
     confidence := lit 85 100;
     history := historyArray |}.

Definition byForecastedSales (a b : ProductForecast) : number :=
  forecastedSales b - forecastedSales a.

Definition generateProductForecasts
  (products : list Product) (sales : list Sale) : list ProductForecast :=
  Array_sort byForecastedSales (map (forecastOf sales) products).

End Engine.

Arguments now h : simpl never.

(** ** Order on numbers, as propositions *)

Definition lt (a b : number) : Prop := ltb a b = true.
Definition le (a b : number) : Prop := leb a b = true.
Definition is_zero (a : number) : Prop := strict_eqb a zero = true.

Infix "<" := lt : num_scope.
Infix "<=" := le : num_scope.

(** ** A sample host and sample records

    The clock reads 2024-04-01T00:00:00.000Z and local time is UTC; the
    parser knows the dates the examples use and takes every other text for
    an invalid date. *)

Module Sample.

Local Open Scope string_scope.

Definition calendar : list (string * Z) :=
  [ ("2024-04-01T00:00:00.000Z", 1711929600000%Z);
    ("2024-03-31T00:00:00.000Z", 1711843200000%Z);
    ("2024-03-25T00:00:00.000Z", 1711324800000%Z);
    ("2024-02-15T00:00:00.000Z", 1707955200000%Z);
    ("1960-01-01T00:00:00.000Z", (-315619200000)%Z) ].

Definition show (a : number) : string :=
  match a with
  | Fin (Qmake n 1) =>
      NilEmpty.string_of_int (Z.to_int n)
  | Fin (Qmake n d) =>
      NilEmpty.string_of_int (Z.to_int n) ++ "/"
      ++ NilEmpty.string_of_uint (Pos.to_uint d)
  | PosInf => "Infinity"
  | NegInf => "-Infinity"
  | NaN => "NaN"
  end.

Definition host : Host :=
  {| clock := 1711929600000;
     LocalTZA := fun _ _ => 0%Z;
     LocalTZA_range := fun _ _ => ltac:(discriminate);
     Date_parse := fun text => lookup text calendar;
     Date_toISOString := fun tv =>
       match find (fun e => Z.eqb (snd e) tv) calendar with
       | Some e => fst e
       | None => ""
       end;
     Number_toString := show;
     Number_toLocaleString := show |}.

Definition item (pid : string) (q : Q) : Item :=
  {| item_id := pid; item_quantity := q |}.

Definition sale (d loc : string) (its : list Item) : Sale :=
  {| sale_date := d; sale_locationId := loc; sale_items := its |}.

(** The scenario of the specification: 100 units idle in the warehouse,
    2 units in a store that sold 15 in the last 30 days. *)
Definition rice : Product :=
  {| product_id := "p1"; product_name := "Rice";
     product_cost := Some 10; product_price := Some 20;
     product_stock := [("warehouse-a", 100); ("store-downtown", 2)] |}.

Definition marchSales : list Sale :=
  [sale "2024-03-25T00:00:00.000Z" "store-downtown" [item "p1" 15]].

(** A product without a cost: 3 units in the warehouse, 30 sold in a store
    a week before the clock reading. *)
Definition salt : Product :=
  {| product_id := "p2"; product_name := "Salt";
     product_cost := None; product_price := Some 20;
     product_stock := [("warehouse-a", 3)] |}.

Definition saltSales : list Sale :=
  [sale "2024-03-25T00:00:00.000Z" "store-downtown" [item "p2" 30]].

End Sample.


(** A host that also reads the date-only texts of the daily history. *)
Module SampleDays.

Local Open Scope string_scope.

Definition calendar : list (string * Z) :=
  Sample.calendar
  ++ [ ("2024-03-25", 1711324800000%Z);
       ("2024-02-15", 1707955200000%Z) ].

Definition host : Host :=
  {| clock := clock Sample.host;
     LocalTZA := fun _ _ => 0%Z;
     LocalTZA_range := fun _ _ => ltac:(discriminate);
     Date_parse := fun text => lookup text calendar;
     Date_toISOString := Date_toISOString Sample.host;
     Number_toString := Sample.show;
     Number_toLocaleString := Sample.show |}.

(** Sales of one product on two days, the later day first. *)
Definition sales : list Sale :=
  [Sample.sale "2024-03-25T00:00:00.000Z" "store-downtown"
     [Sample.item "p1" 15];
   Sample.sale "2024-02-15T00:00:00.000Z" "store-downtown"
     [Sample.item "p1" 10];
   Sample.sale "2024-03-25T00:00:00.000Z" "warehouse-a"
     [Sample.item "p1" 5]].

End SampleDays.

(** A host in the zone of Berlin around the change to summer time of
    2024-03-31 (01:00 UTC): UTC+1 before it, UTC+2 from it on.  The clock
    reads 2024-03-31T22:30:00.000Z, half past midnight of 1 April there. *)
Module SampleBerlin.

Local Open Scope string_scope.

Definition calendar : list (string * Z) :=
  [ ("2024-03-31T22:30:00.000Z", 1711924200000%Z);
    ("2024-03-30T23:00:00.000Z", 1711839600000%Z) ].

Definition zone (tv : Z) (isUTC : bool) : Z :=
  if isUTC then (if (1711846800000 <=? tv)%Z then 7200000 else 3600000)%Z
  else (if (1711850400000 <=? tv)%Z then 7200000 else 3600000)%Z.

Definition host : Host :=
  {| clock := 1711924200000;
     LocalTZA := zone;
     LocalTZA_range := fun tv isUTC =>
       ltac:(unfold zone; destruct isUTC;
             match goal with
             | |- context [Z.leb ?a ?b] => destruct (Z.leb a b)
             end; discriminate);
     Date_parse := fun text => lookup text calendar;
     Date_toISOString := fun _ => "";
     Number_toString := Sample.show;
     Number_toLocaleString := Sample.show |}.

(** One unit sold 23 hours and a half before the clock reading. *)
Definition sales : list Sale :=
  [Sample.sale "2024-03-30T23:00:00.000Z" "store-downtown"
     [Sample.item "p1" 1]].

End SampleBerlin.

(** Three products over the two windows of a forecast: one growing from 10
    to 13, one declining from 10 to 7, one new with 15. *)
Module SampleTrends.

Local Open Scope string_scope.

Definition product (pid : string) : Product :=
  {| product_id := pid; product_name := pid;
     product_cost := Some 10; product_price := Some 20;
     product_stock := [("warehouse-a", 50)] |}.

Definition products : list Product :=
  [product "declining"; product "new"; product "growing"].

Definition sales : list Sale :=
  [Sample.sale "2024-02-15T00:00:00.000Z" "store-downtown"
     [Sample.item "growing" 10; Sample.item "declining" 10];
   Sample.sale "2024-03-25T00:00:00.000Z" "store-downtown"
     [Sample.item "growing" 13; Sample.item "declining" 7;
      Sample.item "new" 15]].

End SampleTrends.

(** ** Notions of the specification *)

(** [after cmp x y]: the comparator sends [x] behind [y]. *)
Definition after {A : Type} (cmp : A -> A -> number) (x y : A) : bool :=
  (cmp x y >? zero)%num.

Section Notions.

Variable h : Host.

(** The window of a velocity: the sales with a valid date from the start
    of the window, the date that [setDate(getDate() - days)] reaches from
    the clock reading, up to the clock reading, both ends included. *)
Definition inWindow (days : number) (s : Sale) : bool :=
  match Date_parse h (sale_date s), daysAgo h days with
  | Some tv, Some start => ((start <=? tv) && (tv <=? clock h))%Z
  | _, _ => false
  end.

(** The quantity of the first item of a list with the product's id, 0
    without such an item. *)
Fixpoint firstMatchQty (productId : string) (its : list Item) : Q :=
  match its with
  | [] => 0
  | it :: rest =>
      if String.eqb (item_id it) productId then item_quantity it
      else firstMatchQty productId rest
  end.

(** The quantity of the product in a sale: that of its first item with the
    product's id. *)
Definition matchedQty (productId : string) (s : Sale) : Q :=
  firstMatchQty productId (sale_items s).

(** The quantity sold in the window: the sum of the matched quantities of
    the sales in the window. *)
Fixpoint windowQty (productId : string) (days : number) (sales : list Sale)
  : Q :=
  match sales with
  | [] => 0
  | s :: rest =>
      (if inWindow days s then matchedQty productId s else 0)
      + windowQty productId days rest
  end.





(** The time values of the sales that hold the product and carry a valid
    date, in the order of the sales. *)
Definition saleTimes (p : Product) (sales : list Sale) : list Z :=
  flat_map
    (fun s =>
       if hasItem (product_id p) (sale_items s) then
         match Date_parse h (sale_date s) with
         | Some tv => [tv]
         | None => []
         end
       else [])
    sales.

(** The latest of a list of time values and a floor. *)
Definition latestOf (floor : Z) (times : list Z) : Z :=
  fold_left Z.max times floor.

(** The date of the specification: the most recent sale of the product, the
    epoch when it was never sold. *)
Definition mostRecentSale (p : Product) (sales : list Sale) : Date.t :=
  match saleTimes p sales with
  | [] => Date.epoch
  | tv :: rest => Some (latestOf tv rest)
  end.

End Notions.

(** The three kinds of insight the generator builds. *)
Definition builtKind (i : StrategicInsight) : Prop :=
  (actionType i = TRANSFER /\ insight_type i = ProfitOptimization)
  \/ (actionType i = LIQUIDATE /\ insight_type i = CashFlow)
  \/ (actionType i = REORDER /\ insight_type i = RiskMitigation).

Definition InsightType_eqb (a b : InsightType) : bool :=
  match a, b with
  | ProfitOptimization, ProfitOptimization
  | RiskMitigation, RiskMitigation
  | CashFlow, CashFlow
  | Growth, Growth => true
  | _, _ => false
  end.

(** The insights of one category, in their order in the list. *)
Definition ofType (ty : InsightType) (l : list StrategicInsight)
  : list StrategicInsight :=
  filter (fun i => InsightType_eqb (insight_type i) ty) l.

(** The categories by descending priority, each in the order of the
    list. *)
Definition rankedByCategory (l : list StrategicInsight)
  : list StrategicInsight :=
  ofType RiskMitigation l ++ ofType ProfitOptimization l
  ++ ofType CashFlow l ++ ofType Growth l.

(** [a] may stand in front of [b]: its category has at least the priority
    of that of [b]. *)
Definition byCategory (a b : StrategicInsight) : Prop :=
  (priorityMap (insight_type b) <= priorityMap (insight_type a))%num.

(** [a] may stand in front of [b]: it forecasts at least as much. *)
Definition byVolume (a b : ProductForecast) : Prop :=
  (forecastedSales b <= forecastedSales a)%num.

(** The quantities of the two windows stay finite. *)
Definition finiteWindows (w : Windows) : Prop :=
  is_finite (currentQty w) /\ is_finite (previousQty w).

(** No item of the sales carries a negative quantity. *)
Definition nonnegSales (sales : list Sale) : Prop :=
  Forall (fun s => Forall (fun it => 0 <= item_quantity it) (sale_items s))
         sales.

(** The quantities of all the items of the sales, signs dropped, added
    up. *)
Definition quantityMass (sales : list Sale) : Q :=
  fold_right
    (fun s acc =>
       fold_right (fun it a => Qabs (item_quantity it) + a) acc
                  (sale_items s))
    0 sales.

(** Every item of the sales carries a whole quantity, and the quantities
    stay, all together, within 10^15: sums of such quantities are exact in
    the double-precision numbers of the engine, whatever their order. *)
Definition wholeSales (sales : list Sale) : Prop :=
  Forall (fun s =>
            Forall (fun it => exists z : Z, item_quantity it == inject_Z z)
                   (sale_items s))
         sales
  /\ quantityMass sales <= 1000000000000000.

(** No sale holds the product. *)
Definition neverSold (productId : string) (sales : list Sale) : Prop :=
  Forall (fun s => hasItem productId (sale_items s) = false) sales.

(** The stock of a product at a location, 0 when the location has no
    entry. *)
Definition stockAt (p : Product) (loc : string) : Q :=
  match lookup loc (product_stock p) with
  | Some q => q
  | None => 0
  end.

(** A number that is a whole number. *)
Definition is_integer (a : number) : Prop :=
  exists z : Z, a = of_Z z.

(** The windows of sales without negative quantities: two finite
    quantities that are not negative. *)
Definition nonnegWindows (w : Windows) : Prop :=
  exists c pv : Q,
    currentQty w = Fin c /\ previousQty w = Fin pv
    /\ (0 <= c)%Q /\ (0 <= pv)%Q.

(** The windows keep their books: the two quantities are finite, and the
    values of the daily history add up to their sum. *)
Definition balancedWindows (w : Windows) : Prop :=
  exists c pv t : Q,
    currentQty w = Fin c /\ previousQty w = Fin pv
    /\ fold_right add zero (map snd (dailyHistory w)) = Fin t
    /\ t == c + pv.

(** The date of a history point reads as a valid date. *)
Definition datedPoint (h : Host) (a : HistoryPoint) : Prop :=
  Date_parse h (point_date a) <> None.

(** [a] may stand in front of [b]: both dates are valid and that of [a]
    is not the later one. *)
Definition byDate (h : Host) (a b : HistoryPoint) : Prop :=
  match Date_parse h (point_date a), Date_parse h (point_date b) with
  | Some x, Some y => (x <= y)%Z
  | _, _ => False
  end.

(** The sum of a list of numbers. *)
Definition totalOf (l : list number) : number :=
  fold_right add zero l.

(** The trend of two finite window quantities, read off the quantities
    themselves: no previous sales and some current ones, at least 120% of
    the previous quantity, at most 80% of it, or none of these. *)
Definition trendByShare (cur prev : Q) : Trend :=
  if Qeq_bool prev 0 then (if Qltb 0 cur then New else Stable)
  else if Qle_bool ((12 # 10) * prev) cur then HighGrowth
  else if Qle_bool cur ((8 # 10) * prev) then Declining
  else Stable.

(** The product an insight is about. *)
Definition insightProduct (i : StrategicInsight) : string :=
  match metadata i with
  | TransferMeta productId _ _ _ => productId
  | LiquidateMeta productId _ => productId
  | ReorderMeta productId _ => productId
  end.

(** The sales made at a location. *)
Definition salesAt (loc : string) (sales : list Sale) : list Sale :=
  filter (fun s => String.eqb (sale_locationId s) loc) sales.

(** The statistics the transfer finder keeps for one location. *)
Definition locStatOf (h : Host) (p : Product) (sales : list Sale)
  (loc : string) : LocStat :=
  let velocity :=
    calculateDemandVelocity h (product_id p) (salesAt loc sales) (lit 30 1) in
  {| locId := loc;
     loc_stock := Fin (stockAt p loc);
     loc_velocity := velocity;
     loc_cover := calculateInventoryCover (Fin (stockAt p loc)) velocity |}.

(** Membership in a list that computes. *)
Ltac in_list := vm_compute; repeat (first [left; reflexivity | right]).

(** Sample sales in whole quantities. *)
Ltac whole_sales :=
  split;
  [ repeat first
      [ apply Forall_nil
      | apply Forall_cons
      | match goal with
        | |- exists z : Z, ?q == inject_Z z =>
            exists (Qfloor q); vm_compute; reflexivity
        end ]
  | vm_compute; discriminate ].

(** ** The scenarios of the specification *)

Section Scenarios.

Local Open Scope string_scope.

(** 100 idle units in the warehouse (cover 999) and a store with 2 units
    selling 0.5 a day (cover 4): 13 units move from the warehouse to the
    store. *)
Example transfer_scenario :
  map metadata
    (findTransferOpportunities Sample.host [Sample.rice] Sample.marchSales)
  = [TransferMeta "p1" "warehouse-a" "store-downtown" (lit 13 1)].
Proof. vm_compute. reflexivity. Qed.

(** Nothing sold in the previous window, 15 units in the current one: growth
    100, trend New, forecast 15. *)
Example forecast_scenario :
  map (fun f => (previousMonthlySales f, currentMonthlySales f,
                 growthRate f, trend f, forecastedSales f))
    (generateProductForecasts Sample.host [Sample.rice] Sample.marchSales)
  = [(zero, lit 15 1, lit 100 1, New, lit 15 1)].
Proof. vm_compute. reflexivity. Qed.

Example stock_health_scenario :
  analyzeStockHealth (lit 61 1) (lit 30 1) (lit 7 1) = Overstock
  /\ analyzeStockHealth (lit 6 1) (lit 30 1) (lit 7 1) = StockoutRisk
  /\ analyzeStockHealth (lit 60 1) (lit 30 1) (lit 7 1) = Healthy.
Proof. repeat split. Qed.

End Scenarios.

(** ** Facts on numbers *)

Section NumberFacts.

Local Open Scope Q_scope.

Lemma Qltb_true (a b : Q) : Qltb a b = true <-> a < b.
Proof.
  unfold Qltb. rewrite negb_true_iff.
  split.
  - intros E. apply Qnot_le_lt. intros L.
    apply Qle_bool_iff in L. congruence.
  - intros L. destruct (Qle_bool b a) eqn:E; [|reflexivity].
    apply Qle_bool_iff in E. lra.
Qed.

Lemma Qltb_false (a b : Q) : Qltb a b = false <-> b <= a.
Proof.
  unfold Qltb. rewrite negb_false_iff. apply Qle_bool_iff.
Qed.

Lemma Qle_bool_false (a b : Q) : Qle_bool a b = false <-> b < a.
Proof.
  rewrite <- Qltb_true. unfold Qltb.
  destruct (Qle_bool a b); simpl; intuition congruence.
Qed.

Lemma Qeq_bool_false (a b : Q) : Qeq_bool a b = false <-> ~ a == b.
Proof.
  split.
  - intros E. now apply Qeq_bool_neq.
  - intros N. destruct (Qeq_bool a b) eqn:E; [|reflexivity].
    apply Qeq_bool_iff in E. contradiction.
Qed.

End NumberFacts.

(** Turns the rational tests of the context and the goal into
    propositions. *)
Ltac qprop :=
  repeat match goal with
  | H : Qltb _ _ = true |- _ => apply Qltb_true in H
  | H : Qltb _ _ = false |- _ => apply Qltb_false in H
  | H : Qle_bool _ _ = true |- _ => apply Qle_bool_iff in H
  | H : Qle_bool _ _ = false |- _ => apply Qle_bool_false in H
  | H : Qeq_bool _ _ = true |- _ => apply Qeq_bool_iff in H
  | H : Qeq_bool _ _ = false |- _ => apply Qeq_bool_false in H
  | |- Qltb _ _ = true => apply Qltb_true
  | |- Qltb _ _ = false => apply Qltb_false
  | |- Qle_bool _ _ = true => apply Qle_bool_iff
  | |- Qle_bool _ _ = false => apply Qle_bool_false
  | |- Qeq_bool _ _ = true => apply Qeq_bool_iff
  | |- Qeq_bool _ _ = false => apply Qeq_bool_false
  end.

(** Unfolds the order on numbers down to the rational tests. *)
Ltac num_unfold :=
  unfold lt, le, is_zero, gtb, geb, zero, lit, of_Z in *; simpl in *.

Section NumberOrder.

Local Open Scope num_scope.

Lemma lt_not_le (a b : number) : a < b -> (b <=? a) = false.
Proof.
  destruct a, b; num_unfold; try congruence; intros; qprop; lra.
Qed.

Lemma is_zero_not_pos (a : number) : is_zero a -> (zero <? a) = false.
Proof.
  destruct a; num_unfold; try congruence; intros; qprop; lra.
Qed.

Lemma sub_pos_iff (x y : Q) : (zero <? Fin x - Fin y) = Qltb y x.
Proof.
  unfold zero. cbn [ltb sub].
  destruct (Qltb y x) eqn:E; qprop; rewrite Qred_correct; lra.
Qed.

End NumberOrder.

(** ** Inventory cover *)

Section Cover.

Local Open Scope num_scope.

(** C3.  For a stock quantity [stock >= 0] and any velocity, the inventory
    cover is 0 when [velocity <= 0] and the stock is 0, the sentinel 999
    when [velocity <= 0] and the stock is positive, and [stock / velocity]
    when [velocity > 0]. *)
Theorem calculateInventoryCover_cases (stock velocity : number) :
  zero <= stock ->
  (velocity <= zero -> is_zero stock ->
   calculateInventoryCover stock velocity = zero)
  /\ (velocity <= zero -> zero < stock ->
      calculateInventoryCover stock velocity = lit 999 1)
  /\ (zero < velocity ->
      calculateInventoryCover stock velocity = stock / velocity).
Proof.
  intros _. unfold calculateInventoryCover. repeat split.
  - intros Hv Hs. rewrite Hv. unfold gtb.
    now rewrite (is_zero_not_pos _ Hs).
  - intros Hv Hs. rewrite Hv. unfold gtb. now rewrite Hs.
  - intros Hv. now rewrite (lt_not_le _ _ Hv).
Qed.

Lemma calculateInventoryCover_cases_witness :
  (zero <= lit 7 1)
  /\ calculateInventoryCover (lit 7 1) zero = lit 999 1
  /\ calculateInventoryCover zero zero = zero
  /\ calculateInventoryCover (lit 7 1) (lit 2 1) = lit 7 1 / lit 2 1.
Proof.
  split; [reflexivity|].
  split; [|split].
  - apply (calculateInventoryCover_cases (lit 7 1) zero); reflexivity.
  - apply (calculateInventoryCover_cases zero zero); reflexivity.
  - apply (calculateInventoryCover_cases (lit 7 1) (lit 2 1)); reflexivity.
Defined.

End Cover.

(** ** Aging score *)

Section Aging.

Local Open Scope num_scope.

(** C4, as the specification words it, fails: with a cover of half a day
    and a last movement one day before the clock reading the score is
    [1 / 0.5 = 2], where division by [max(coverDays, 1)] gives 1. *)
Lemma calculateAgingScore_max_counterexample :
  let last := "2024-03-31T00:00:00.000Z"%string in
  let coverDays := lit 1 2 in
  calculateAgingScore Sample.host (Some last) coverDays = lit 2 1
  /\ daysSince Sample.host (Date_parse Sample.host last)
     / Math_max coverDays (lit 1 1) = lit 1 1
  /\ calculateAgingScore Sample.host (Some last) coverDays
     <> daysSince Sample.host (Date_parse Sample.host last)
        / Math_max coverDays (lit 1 1).
Proof.
  cbv zeta. repeat split; try (vm_compute; reflexivity).
  vm_compute. discriminate.
Qed.

Lemma Math_max_one (coverDays : number) :
  is_zero coverDays \/ lit 1 1 <= coverDays ->
  Math_max coverDays (lit 1 1)
  = if coverDays === zero then lit 1 1 else coverDays.
Proof.
  destruct coverDays as [q| | |]; num_unfold; intros [H|H];
    try congruence.
  - rewrite H. qprop.
    replace (Qltb q 1) with true; [reflexivity|].
    symmetry. apply Qltb_true. lra.
  - qprop.
    replace (Qeq_bool q 0) with false
      by (symmetry; apply Qeq_bool_false; lra).
    replace (Qltb q 1) with false; [reflexivity|].
    symmetry. apply Qltb_false. lra.
Qed.

(** C4, amended.  The aging score is 0 when the last-movement date is
    missing or the empty text.  Otherwise it is the number of days since
    the last movement divided by [coverDays], where a [coverDays] of exactly
    0 is replaced by 1; this is the division by [max(coverDays, 1)] whenever
    [coverDays] is 0 or at least 1. *)
Theorem calculateAgingScore_cases
  (h : Host) (text : string) (coverDays : number) :
  text <> EmptyString ->
  let days := daysSince h (Date_parse h text) in
  calculateAgingScore h None coverDays = zero
  /\ calculateAgingScore h (Some EmptyString) coverDays = zero
  /\ (is_zero coverDays ->
      calculateAgingScore h (Some text) coverDays = days / lit 1 1)
  /\ (~ is_zero coverDays ->
      calculateAgingScore h (Some text) coverDays = days / coverDays)
  /\ (is_zero coverDays \/ lit 1 1 <= coverDays ->
      calculateAgingScore h (Some text) coverDays
      = days / Math_max coverDays (lit 1 1)).
Proof.
  intros Hne days. unfold calculateAgingScore.
  destruct text as [|c rest]; [now elim Hne|].
  fold days. repeat split.
  - intros Hz. unfold is_zero in Hz. now rewrite Hz.
  - intros Hz. unfold is_zero in Hz.
    now destruct (coverDays === zero).
  - intros Hc. now rewrite (Math_max_one _ Hc).
Qed.

Lemma calculateAgingScore_cases_witness :
  calculateAgingScore Sample.host
    (Some "2024-03-31T00:00:00.000Z"%string) (lit 4 1)
  = daysSince Sample.host (Some 1711843200000%Z) / lit 4 1.
Proof.
  refine (proj1 (proj2 (proj2 (proj2
    (calculateAgingScore_cases Sample.host
       "2024-03-31T00:00:00.000Z"%string (lit 4 1) _)))) _).
  - discriminate.
  - unfold is_zero. vm_compute. discriminate.
Defined.

End Aging.

(** ** Demand velocity *)

Section Velocity.

Variable h : Host.

Lemma soldQty_matched (productId : string) (s : Sale) :
  soldQty productId s = Fin (matchedQty productId s).
Proof.
  unfold soldQty, matchedQty, findItem.
  induction (sale_items s) as [|it rest IH]; cbn [find firstMatchQty];
    [reflexivity|].
  destruct (String.eqb (item_id it) productId); [reflexivity|exact IH].
Qed.

Lemma relevant_inWindow (days : number) (s : Sale) :
  Date.geb (Date_parse h (sale_date s)) (daysAgo h days)
  && Date.leb (Date_parse h (sale_date s)) (now h)
  = inWindow h days s.
Proof.
  unfold inWindow, now, Date.leb, Date.geb.
  destruct (Date_parse h (sale_date s)) as [tv|]; [|reflexivity].
  destruct (daysAgo h days); reflexivity.
Qed.

Lemma totalQty_sum (productId : string) (days : number) (sales : list Sale) :
  forall acc : Q,
  exists q : Q,
    fold_left (fun a sale => (a + soldQty productId sale)%num)
      (filter (inWindow h days) sales) (Fin acc) = Fin q
    /\ q == acc + windowQty h productId days sales.
Proof.
  induction sales as [|s rest IH]; intros acc; cbn [filter windowQty].
  - exists acc. split; [reflexivity|lra].
  - destruct (inWindow h days s) eqn:E; cbn [fold_left].
    + rewrite soldQty_matched. cbn [add].
      destruct (IH (Qred (acc + matchedQty productId s))) as [q [Hq Hq']].
      exists q. split; [exact Hq|]. rewrite Hq', Qred_correct. lra.
    + destruct (IH acc) as [q [Hq Hs]]. exists q. split; [exact Hq|]. lra.
Qed.

Lemma ToInteger_whole (q : Q) (z : Z) :
  q == inject_Z z -> Date.ToInteger q = z.
Proof.
  intros E. unfold Date.ToInteger.
  rewrite (Qfloor_comp _ _ E), (Qceiling_comp _ _ E), Qfloor_Z, Qceiling_Z.
  now destruct (Qle_bool 0 q).
Qed.



End Velocity.



(** ** Dead stock *)

Section DeadStock.

Variable h : Host.

Local Open Scope Z_scope.

Lemma latestOf_floor (times : list Z) :
  forall floor, floor <= latestOf floor times.
Proof.
  unfold latestOf.
  induction times as [|tv rest IH]; intros floor; simpl; [lia|].
  specialize (IH (Z.max floor tv)). lia.
Qed.

Lemma latestOf_upper (times : list Z) :
  forall floor tv, In tv times -> tv <= latestOf floor times.
Proof.
  unfold latestOf.
  induction times as [|a rest IH]; intros floor tv; simpl; [tauto|].
  intros [->|Hin].
  - pose proof (latestOf_floor rest (Z.max floor tv)) as L.
    unfold latestOf in L. lia.
  - now apply IH.
Qed.

Lemma latestOf_member (times : list Z) :
  forall floor, latestOf floor times = floor \/ In (latestOf floor times) times.
Proof.
  unfold latestOf.
  induction times as [|a rest IH]; intros floor; simpl; [now left|].
  destruct (IH (Z.max floor a)) as [E|Hin]; [|now right; right].
  rewrite E. destruct (Z.max_spec floor a) as [[_ ->]|[_ ->]]; auto.
Qed.

Lemma lastSaleDateOf_latest (p : Product) (sales : list Sale) :
  lastSaleDateOf h p sales = Some (latestOf 0 (saleTimes h p sales)).
Proof.
  unfold lastSaleDateOf, Date.epoch, latestOf. generalize 0.
  induction sales as [|s rest IH]; intros floor; simpl; [reflexivity|].
  destruct (hasItem (product_id p) (sale_items s)); simpl; [|apply IH].
  destruct (Date_parse h (sale_date s)) as [tv|]; simpl; [|apply IH].
  destruct (Z.ltb_spec floor tv).
  - rewrite IH. do 2 f_equal. lia.
  - rewrite IH. do 2 f_equal. lia.
Qed.

Local Open Scope num_scope.

(** What the scan of [detectDeadStock] computes: a product is flagged
    exactly when its total stock is positive and the days since the date
    the scan ends with exceed the threshold; that date is the latest of the
    epoch, where the scan starts, and the validly dated sales of the
    product.  A product whose total stock is 0 is never flagged. *)
Lemma detectDeadStock_iff
  (p : Product) (sales : list Sale) (thresholdDays : number) :
  let last := latestOf 0 (saleTimes h p sales) in
  (detectDeadStock h p sales thresholdDays = true
   <-> zero < totalStockOf p /\ thresholdDays < daysSince h (Some last))
  /\ (forall tv, In tv (0%Z :: saleTimes h p sales) -> (tv <= last)%Z)
  /\ In last (0%Z :: saleTimes h p sales)
  /\ (is_zero (totalStockOf p) ->
      detectDeadStock h p sales thresholdDays = false).
Proof.
  intros last. unfold detectDeadStock.
  rewrite lastSaleDateOf_latest. fold last.
  split; [|split; [|split]].
  - unfold lt, gtb. rewrite andb_true_iff. tauto.
  - intros tv [<-|Hin].
    + apply latestOf_floor.
    + now apply latestOf_upper.
  - destruct (latestOf_member (saleTimes h p sales) 0) as [E|Hin].
    + left. symmetry. exact E.
    + now right.
  - intros Hz. unfold gtb. now rewrite (is_zero_not_pos _ Hz).
Qed.

End DeadStock.

(** C5.  The code misses the claim at a sale dated before the epoch.  The
    product below has 5 units in stock; its only sale, so its most recent
    one, is of 1960-01-01, 23467 days before the clock reading of
    2024-04-01.  With a threshold of 20000 days the claim flags it, yet
    [detectDeadStock] returns false: its scan for the most recent sale date
    starts from the epoch, only 19814 days back, and keeps it. *)
Theorem detectDeadStock_pre_epoch_sale :
  let p := {| product_id := "p1"; product_name := "Rice";
              product_cost := Some 10; product_price := Some 20;
              product_stock := [("warehouse-a"%string, 5)] |} in
  let sales := [Sample.sale "1960-01-01T00:00:00.000Z" "warehouse-a"
                  [Sample.item "p1" 1]] in
  detectDeadStock Sample.host p sales (lit 20000 1) = false
  /\ totalStockOf p = lit 5 1
  /\ mostRecentSale Sample.host p sales = Some (-315619200000)%Z
  /\ daysSince Sample.host (mostRecentSale Sample.host p sales)
     = lit 23467 1
  /\ lastSaleDateOf Sample.host p sales = Date.epoch
  /\ daysSince Sample.host (lastSaleDateOf Sample.host p sales)
     = lit 19814 1.
Proof.
  cbv zeta. repeat split; vm_compute; reflexivity.
Qed.

(** ** The stable sort *)

Section Sorting.

Context {A : Type}.
Variable cmp : A -> A -> number.

Lemma sort_insert_In (x y : A) (l : list A) :
  In y (sort_insert cmp x l) <-> y = x \/ In y l.
Proof.
  induction l as [|a l IH]; cbn [sort_insert].
  - simpl. intuition.
  - destruct (cmp x a >? zero)%num; cbn [In]; [rewrite IH|]; intuition.
Qed.

Lemma Array_sort_In (y : A) (l : list A) :
  In y (Array_sort cmp l) <-> In y l.
Proof.
  induction l as [|a l IH]; cbn [Array_sort fold_right]; [tauto|].
  fold (Array_sort cmp l). rewrite sort_insert_In, IH. simpl. intuition.
Qed.

Lemma sort_insert_length (x : A) (l : list A) :
  List.length (sort_insert cmp x l) = S (List.length l).
Proof.
  induction l as [|a l IH]; cbn [sort_insert]; [reflexivity|].
  destruct (cmp x a >? zero)%num; cbn [List.length]; congruence.
Qed.

Lemma Array_sort_length (l : list A) :
  List.length (Array_sort cmp l) = List.length l.
Proof.
  induction l as [|a l IH]; cbn [Array_sort fold_right]; [reflexivity|].
  fold (Array_sort cmp l). now rewrite sort_insert_length, IH.
Qed.

(** An element passes the elements it goes behind. *)
Lemma sort_insert_skip (x : A) (l1 l2 : list A) :
  Forall (fun y => after cmp x y = true) l1 ->
  sort_insert cmp x (l1 ++ l2) = l1 ++ sort_insert cmp x l2.
Proof.
  unfold after.
  induction 1 as [|y l1 Hy _ IH]; cbn [app sort_insert]; [reflexivity|].
  now rewrite Hy, IH.
Qed.

(** An element stops in front of the first one it does not go behind. *)
Lemma sort_insert_stop (x : A) (l : list A) :
  Forall (fun y => after cmp x y = false) l ->
  sort_insert cmp x l = x :: l.
Proof.
  unfold after. destruct 1 as [|y l Hy _]; cbn [sort_insert]; [reflexivity|].
  now rewrite Hy.
Qed.

(** The sort orders the elements of a class [P] on which the comparator
    decides a relation [R] that relates any two elements one way or the
    other. *)
Section Ordered.

Variable P : A -> Prop.
Variable R : A -> A -> Prop.
Hypothesis after_R : forall x y, P x -> P y -> after cmp x y = true -> R y x.
Hypothesis front_R : forall x y, P x -> P y -> after cmp x y = false -> R x y.

Lemma sort_insert_P (x : A) (l : list A) :
  P x -> Forall P l -> Forall P (sort_insert cmp x l).
Proof.
  intros Hx Hl. apply Forall_forall. intros y Hy.
  apply sort_insert_In in Hy. destruct Hy as [->|Hy]; [assumption|].
  rewrite Forall_forall in Hl. auto.
Qed.

Lemma sort_insert_Sorted (x : A) (l : list A) :
  P x -> Forall P l -> Sorted R l -> Sorted R (sort_insert cmp x l).
Proof.
  intros Hx Hl Hs.
  induction l as [|a l IH]; cbn [sort_insert].
  - repeat constructor.
  - inversion Hl as [|a' l' Ha Hl']; subst.
    inversion Hs as [|a' l' Hs' Hhd]; subst.
    destruct (after cmp x a) eqn:E; unfold after in E; rewrite E.
    + constructor; [now apply IH|].
      destruct l as [|b l]; cbn [sort_insert].
      * constructor. now apply after_R.
      * destruct (cmp x b >? zero)%num.
        -- constructor. now inversion Hhd.
        -- constructor. now apply after_R.
    + constructor; [assumption|].
      constructor. now apply front_R.
Qed.

Lemma Array_sort_Sorted (l : list A) :
  Forall P l -> Forall P (Array_sort cmp l) /\ Sorted R (Array_sort cmp l).
Proof.
  induction 1 as [|x l Hx Hl [IHP IHS]]; cbn [Array_sort fold_right].
  - split; constructor.
  - fold (Array_sort cmp l).
    split; [now apply sort_insert_P|now apply sort_insert_Sorted].
Qed.

End Ordered.

End Sorting.

(** ** Slices *)

Section Slice.

Context {A : Type}.

Lemma slice0_In (n : nat) (l : list A) (x : A) :
  In x (slice0 n l) -> In x l.
Proof.
  unfold slice0. revert l.
  induction n as [|n IH]; intros [|a l]; simpl; try tauto.
  intros [->|Hx]; [now left|right; now apply IH].
Qed.

Lemma slice0_length (n : nat) (l : list A) :
  (List.length (slice0 n l) <= n)%nat.
Proof.
  unfold slice0. apply firstn_le_length.
Qed.

Lemma slice0_Sorted (R : A -> A -> Prop) (n : nat) (l : list A) :
  Sorted R l -> Sorted R (slice0 n l).
Proof.
  unfold slice0. revert l.
  induction n as [|n IH]; intros l Hs; simpl; [constructor|].
  destruct Hs as [|a l Hs Hhd]; constructor.
  - now apply IH.
  - destruct Hhd as [|b l Hab]; destruct n; simpl; constructor.
    assumption.
Qed.

End Slice.

(** ** Transfer opportunities *)

Section Transfers.

Variable h : Host.

Local Open Scope num_scope.

Lemma matchPair_inv
  (p : Product) (source target : LocStat) (i : StrategicInsight) :
  In i (matchPair h p source target) ->
  exists qty,
    i = transferInsight h p source target qty
    /\ transferCostOf qty < estimatedGainOf p qty.
Proof.
  unfold matchPair.
  destruct (loc_stock source >? lit 10 1); [|contradiction].
  destruct (transferQtyOf source target >? zero); [|contradiction].
  destruct (estimatedGainOf p (transferQtyOf source target)
            >? transferCostOf (transferQtyOf source target)) eqn:E;
    [|contradiction].
  intros [<-|[]]. exists (transferQtyOf source target). now split.
Qed.

Lemma findTransferOpportunities_inv
  (products : list Product) (sales : list Sale) (i : StrategicInsight) :
  In i (findTransferOpportunities h products sales) ->
  exists p source target qty,
    In p products
    /\ i = transferInsight h p source target qty
    /\ transferCostOf qty < estimatedGainOf p qty.
Proof.
  unfold findTransferOpportunities, transfersOfProduct.
  intros Hi.
  apply in_flat_map in Hi. destruct Hi as [p [Hp Hi]].
  apply in_flat_map in Hi. destruct Hi as [source [_ Hi]].
  apply in_flat_map in Hi. destruct Hi as [target [_ Hi]].
  apply matchPair_inv in Hi. destruct Hi as [qty [-> Hgain]].
  now exists p, source, target, qty.
Qed.

(** C1.  Every insight the transfer finder emits is a TRANSFER insight of a
    listed product [p] for a quantity [qty] with
    [estimatedGain > transferCost], where
    [estimatedGain = (price - cost) * qty] with a missing price or cost
    read as 0, and [transferCost = 50 + qty * 2]; so no emitted insight
    has [estimatedGain <= transferCost]. *)
Theorem findTransferOpportunities_gain_exceeds_cost
  (products : list Product) (sales : list Sale) (i : StrategicInsight) :
  In i (findTransferOpportunities h products sales) ->
  exists (p : Product) (src dst : string) (qty : number),
    In p products
    /\ actionType i = TRANSFER
    /\ metadata i = TransferMeta (product_id p) src dst qty
    /\ let estimatedGain :=
         (field_or_zero (product_price p) - field_or_zero (product_cost p))
         * qty in
       let transferCost := lit 50 1 + qty * lit 2 1 in
       transferCost < estimatedGain
       /\ (estimatedGain <=? transferCost) = false.
Proof.
  intros Hi.
  destruct (findTransferOpportunities_inv _ _ _ Hi)
    as [p [source [target [qty [Hp [-> Hgain]]]]]].
  exists p, (locId source), (locId target), qty.
  repeat split; try assumption.
  now apply lt_not_le.
Qed.

End Transfers.

Lemma findTransferOpportunities_gain_exceeds_cost_witness :
  exists (p : Product) (src dst : string) (qty : number),
    metadata
      (transferInsight Sample.host Sample.rice
         {| locId := "warehouse-a"; loc_stock := lit 100 1;
            loc_velocity := zero; loc_cover := lit 999 1 |}
         {| locId := "store-downtown"; loc_stock := lit 2 1;
            loc_velocity := lit 1 2; loc_cover := lit 4 1 |}
         (lit 13 1))
    = TransferMeta (product_id p) src dst qty
    /\ (lit 50 1 + qty * lit 2 1
        < (field_or_zero (product_price p) - field_or_zero (product_cost p))
          * qty)%num.
Proof.
  match goal with
  | |- context [metadata ?i] =>
      assert (Hin : In i (findTransferOpportunities Sample.host
                            [Sample.rice] Sample.marchSales)) by in_list
  end.
  destruct (findTransferOpportunities_gain_exceeds_cost Sample.host
    [Sample.rice] Sample.marchSales _ Hin)
    as [p [src [dst [qty [_ [_ [Hm [Hlt _]]]]]]]].
  exists p, src, dst, qty. split; [exact Hm|exact Hlt].
Defined.

(** ** Strategic insights *)

Section Insights.

Variable h : Host.

Local Open Scope num_scope.

Lemma transfers_type (products : list Product) (sales : list Sale) :
  Forall (fun i => actionType i = TRANSFER
                   /\ insight_type i = ProfitOptimization)
         (findTransferOpportunities h products sales).
Proof.
  apply Forall_forall. intros i Hi.
  destruct (findTransferOpportunities_inv h _ _ _ Hi)
    as [p [source [target [qty [_ [E _]]]]]].
  clear Hi. subst i. split; reflexivity.
Qed.

Lemma deadStock_type (products : list Product) (sales : list Sale) :
  Forall (fun i => actionType i = LIQUIDATE /\ insight_type i = CashFlow)
         (flat_map (deadStockOfProduct h sales) products).
Proof.
  apply Forall_forall. intros i Hi.
  apply in_flat_map in Hi. destruct Hi as [p [_ Hi]].
  unfold deadStockOfProduct in Hi.
  destruct (detectDeadStock h p sales (lit 90 1)); [|contradiction].
  destruct (capitalBlockedOf p >? lit 1000 1); [|contradiction].
  destruct Hi as [<-|[]]. split; reflexivity.
Qed.

Lemma reorder_type (products : list Product) (sales : list Sale) :
  Forall (fun i => actionType i = REORDER /\ insight_type i = RiskMitigation)
         (flat_map (reorderOfProduct h sales) products).
Proof.
  apply Forall_forall. intros i Hi.
  apply in_flat_map in Hi. destruct Hi as [p [_ Hi]].
  unfold reorderOfProduct in Hi.
  match type of Hi with
  | In _ (if ?c then _ else _) => destruct c; [|contradiction]
  end.
  destruct Hi as [<-|[]]. split; reflexivity.
Qed.

Lemma collectedInsights_kind (products : list Product) (sales : list Sale) :
  Forall builtKind (collectedInsights h products sales).
Proof.
  unfold collectedInsights.
  apply Forall_app; split; [|apply Forall_app; split].
  - eapply Forall_impl; [|apply transfers_type]. unfold builtKind. tauto.
  - eapply Forall_impl; [|apply deadStock_type]. unfold builtKind. tauto.
  - eapply Forall_impl; [|apply reorder_type]. unfold builtKind. tauto.
Qed.

Lemma generateStrategicInsights_In
  (products : list Product) (sales : list Sale) (i : StrategicInsight) :
  In i (generateStrategicInsights h products sales) ->
  In i (collectedInsights h products sales).
Proof.
  unfold generateStrategicInsights. intros Hi.
  apply slice0_In in Hi. now apply Array_sort_In in Hi.
Qed.

(** C10.  Every insight the generator returns is a TRANSFER insight of
    type Profit Optimization, a LIQUIDATE insight of type Cash Flow or a
    REORDER insight of type Risk Mitigation; none has type Growth or action
    PRICE_ADJUST. *)
Theorem generateStrategicInsights_kinds
  (products : list Product) (sales : list Sale) (i : StrategicInsight) :
  In i (generateStrategicInsights h products sales) ->
  builtKind i
  /\ insight_type i <> Growth
  /\ actionType i <> PRICE_ADJUST.
Proof.
  intros Hi. apply generateStrategicInsights_In in Hi.
  pose proof (collectedInsights_kind products sales) as K.
  rewrite Forall_forall in K. specialize (K i Hi).
  split; [exact K|].
  destruct K as [[Ha Ht]|[[Ha Ht]|[Ha Ht]]]; rewrite Ha, Ht;
    split; discriminate.
Qed.

End Insights.

Lemma generateStrategicInsights_kinds_witness :
  builtKind
    (transferInsight Sample.host Sample.rice
       {| locId := "warehouse-a"; loc_stock := lit 100 1;
          loc_velocity := zero; loc_cover := lit 999 1 |}
       {| locId := "store-downtown"; loc_stock := lit 2 1;
          loc_velocity := lit 1 2; loc_cover := lit 4 1 |}
       (lit 13 1)).
Proof.
  refine (proj1 (generateStrategicInsights_kinds Sample.host
    [Sample.rice] Sample.marchSales _ _)).
  in_list.
Defined.

(** ** Ranking of the insights *)

Section Ranking.

Lemma InsightType_eqb_eq (a b : InsightType) :
  InsightType_eqb a b = true <-> a = b.
Proof.
  destruct a, b; simpl; split; congruence.
Qed.

Lemma ofType_Forall (ty : InsightType) (l : list StrategicInsight) :
  Forall (fun i => insight_type i = ty) (ofType ty l).
Proof.
  apply Forall_forall. intros i Hi.
  apply filter_In in Hi. now apply InsightType_eqb_eq.
Qed.

Lemma after_byPriority (x y : StrategicInsight) :
  after byPriority x y
  = match insight_type x, insight_type y with
    | RiskMitigation, _ => false
    | ProfitOptimization, RiskMitigation => true
    | ProfitOptimization, _ => false
    | CashFlow, (RiskMitigation | ProfitOptimization) => true
    | CashFlow, _ => false
    | Growth, Growth => false
    | Growth, _ => true
    end.
Proof.
  unfold after, byPriority.
  destruct (insight_type x), (insight_type y); reflexivity.
Qed.

Lemma byPriority_byCategory (x y : StrategicInsight) :
  (after byPriority x y = true -> byCategory y x)
  /\ (after byPriority x y = false -> byCategory x y).
Proof.
  rewrite after_byPriority. unfold byCategory.
  destruct (insight_type x), (insight_type y); split;
    intros E; try discriminate E; reflexivity.
Qed.

(** The elements of category [ty] all send [x] behind them, or all keep it
    in front, as the categories of [x] and [ty] tell. *)
Lemma ofType_after (x : StrategicInsight) (ty : InsightType)
      (l : list StrategicInsight) (b : bool) :
  (forall y, insight_type y = ty -> after byPriority x y = b) ->
  Forall (fun y => after byPriority x y = b) (ofType ty l).
Proof.
  intros Hb. eapply Forall_impl; [|apply ofType_Forall].
  intros y Hy. now apply Hb.
Qed.

Lemma ofType_cons (x : StrategicInsight) (ty : InsightType)
      (l : list StrategicInsight) :
  ofType ty (x :: l)
  = if InsightType_eqb (insight_type x) ty then x :: ofType ty l
    else ofType ty l.
Proof. reflexivity. Qed.

(** Decides [after byPriority x y] from the categories in the context. *)
Ltac by_category Hx :=
  let y := fresh "y" in
  let Hy := fresh "Hy" in
  intros y Hy; rewrite after_byPriority, Hx, ?Hy; reflexivity.

Lemma Array_sort_byPriority (l : list StrategicInsight) :
  Array_sort byPriority l = rankedByCategory l.
Proof.
  induction l as [|x l IH]; [reflexivity|].
  cbn [Array_sort fold_right]. fold (Array_sort byPriority l).
  rewrite IH. unfold rankedByCategory. rewrite !ofType_cons.
  destruct (insight_type x) eqn:Hx; cbn [InsightType_eqb].
  - (* Profit Optimization: behind the risks, in front of the rest *)
    rewrite sort_insert_skip by (apply ofType_after; by_category Hx).
    rewrite sort_insert_stop; [reflexivity|].
    apply Forall_app; split; [|apply Forall_app; split];
      apply ofType_after; by_category Hx.
  - (* Risk Mitigation: in front of everything *)
    rewrite sort_insert_stop; [reflexivity|].
    apply Forall_app; split;
      [|apply Forall_app; split; [|apply Forall_app; split]];
      apply ofType_after; by_category Hx.
  - (* Cash Flow: behind risks and profits *)
    rewrite sort_insert_skip by (apply ofType_after; by_category Hx).
    rewrite sort_insert_skip by (apply ofType_after; by_category Hx).
    rewrite sort_insert_stop; [reflexivity|].
    apply Forall_app; split; apply ofType_after; by_category Hx.
  - (* Growth: behind every other category *)
    rewrite sort_insert_skip by (apply ofType_after; by_category Hx).
    rewrite sort_insert_skip by (apply ofType_after; by_category Hx).
    rewrite sort_insert_skip by (apply ofType_after; by_category Hx).
    rewrite sort_insert_stop; [reflexivity|].
    apply ofType_after; by_category Hx.
Qed.

End Ranking.

Section Ranked.

Variable h : Host.

Lemma ofType_all (ty : InsightType) (l : list StrategicInsight) :
  Forall (fun i => insight_type i = ty) l -> ofType ty l = l.
Proof.
  induction 1 as [|x l Hx _ IH]; [reflexivity|].
  rewrite ofType_cons, IH, Hx. now destruct ty.
Qed.

Lemma ofType_none (ty ty' : InsightType) (l : list StrategicInsight) :
  ty <> ty' ->
  Forall (fun i => insight_type i = ty') l -> ofType ty l = [].
Proof.
  intros Hne. induction 1 as [|x l Hx _ IH]; [reflexivity|].
  rewrite ofType_cons, IH, Hx.
  destruct (InsightType_eqb ty' ty) eqn:E; [|reflexivity].
  apply InsightType_eqb_eq in E. congruence.
Qed.

Lemma ofType_app (ty : InsightType) (l1 l2 : list StrategicInsight) :
  ofType ty (l1 ++ l2) = ofType ty l1 ++ ofType ty l2.
Proof. apply filter_app. Qed.

(** With the categories the three scans give their insights, the ranking
    puts the reorders first, then the transfers, then the dead stock. *)
Lemma rankedByCategory_collected (products : list Product) (sales : list Sale) :
  rankedByCategory (collectedInsights h products sales)
  = flat_map (reorderOfProduct h sales) products
    ++ findTransferOpportunities h products sales
    ++ flat_map (deadStockOfProduct h sales) products.
Proof.
  pose proof (Forall_impl _ (fun i H => proj2 H)
                (transfers_type h products sales)) as HT.
  pose proof (Forall_impl _ (fun i H => proj2 H)
                (deadStock_type h products sales)) as HD.
  pose proof (Forall_impl _ (fun i H => proj2 H)
                (reorder_type h products sales)) as HR.
  cbv beta in HT, HD, HR.
  unfold rankedByCategory, collectedInsights. rewrite !ofType_app.
  rewrite (ofType_all _ _ HT), (ofType_all _ _ HD), (ofType_all _ _ HR).
  rewrite
    (ofType_none RiskMitigation ProfitOptimization _ ltac:(discriminate) HT),
    (ofType_none RiskMitigation CashFlow _ ltac:(discriminate) HD),
    (ofType_none ProfitOptimization CashFlow _ ltac:(discriminate) HD),
    (ofType_none ProfitOptimization RiskMitigation _ ltac:(discriminate) HR),
    (ofType_none CashFlow ProfitOptimization _ ltac:(discriminate) HT),
    (ofType_none CashFlow RiskMitigation _ ltac:(discriminate) HR),
    (ofType_none Growth ProfitOptimization _ ltac:(discriminate) HT),
    (ofType_none Growth CashFlow _ ltac:(discriminate) HD),
    (ofType_none Growth RiskMitigation _ ltac:(discriminate) HR).
  cbn [app]. now rewrite !app_nil_r.
Qed.

Lemma byCategory_trans (a b c : StrategicInsight) :
  byCategory a b -> byCategory b c -> byCategory a c.
Proof.
  unfold byCategory.
  destruct (insight_type a), (insight_type b), (insight_type c);
    intros H1 H2; try reflexivity; try discriminate H1; discriminate H2.
Qed.

(** C2.  The list of strategic insights has at most 5 elements and is
    sorted by descending category priority (Risk Mitigation 3, Profit
    Optimization 2, Cash Flow 1, Growth 0); it is the first 5 of the
    collected insights (transfers, then dead stock, then reorders) arranged
    category by category, each category in the order of collection: the
    reorders, then the transfers, then the dead stock. *)
Theorem generateStrategicInsights_ranked
  (products : list Product) (sales : list Sale) :
  let transfers := findTransferOpportunities h products sales in
  let deadStock := flat_map (deadStockOfProduct h sales) products in
  let reorders := flat_map (reorderOfProduct h sales) products in
  let collected := transfers ++ deadStock ++ reorders in
  let out := generateStrategicInsights h products sales in
  (List.length out <= 5)%nat
  /\ StronglySorted byCategory out
  /\ out = firstn 5 (ofType RiskMitigation collected
                     ++ ofType ProfitOptimization collected
                     ++ ofType CashFlow collected
                     ++ ofType Growth collected)
  /\ out = firstn 5 (reorders ++ transfers ++ deadStock).
Proof.
  intros transfers deadStock reorders collected out. repeat split.
  - apply slice0_length.
  - apply Sorted_StronglySorted; [exact byCategory_trans|].
    apply slice0_Sorted.
    apply (Array_sort_Sorted byPriority (fun _ => True) byCategory).
    + intros x y _ _. apply byPriority_byCategory.
    + intros x y _ _. apply byPriority_byCategory.
    + apply Forall_forall. trivial.
  - unfold out, generateStrategicInsights.
    now rewrite Array_sort_byPriority.
  - unfold out, generateStrategicInsights.
    now rewrite Array_sort_byPriority, rankedByCategory_collected.
Qed.

End Ranked.

(** ** Forecasts *)

Section Forecasts.

Variable h : Host.

Local Open Scope num_scope.

Lemma generateProductForecasts_In
  (products : list Product) (sales : list Sale) (f : ProductForecast) :
  In f (generateProductForecasts h products sales) <->
  exists p, In p products /\ f = forecastOf h sales p.
Proof.
  unfold generateProductForecasts.
  rewrite Array_sort_In, in_map_iff.
  split; intros [p [H1 H2]]; exists p; intuition.
Qed.

Lemma le_minus20_not_ge20 (g : number) :
  g <= neg (lit 20 1) -> (g >=? lit 20 1) = false.
Proof.
  destruct g; num_unfold; try congruence.
  intros H. qprop. lra.
Qed.

(** C6.  In every forecast the trend is New when the quantity of the
    previous window is 0 and that of the current window is positive,
    although the growth rate, 100 then, is above the threshold of High
    Growth; otherwise it is High Growth for a growth rate of at least 20,
    Declining for one of at most -20, and Stable for any other. *)
Theorem generateProductForecasts_trend
  (products : list Product) (sales : list Sale) (f : ProductForecast) :
  In f (generateProductForecasts h products sales) ->
  let cur := currentMonthlySales f in
  let prev := previousMonthlySales f in
  let g := growthRate f in
  (is_zero prev /\ zero < cur -> trend f = New /\ g = lit 100 1)
  /\ (~ (is_zero prev /\ zero < cur) ->
      (lit 20 1 <= g -> trend f = HighGrowth)
      /\ (g <= neg (lit 20 1) -> trend f = Declining)
      /\ (~ lit 20 1 <= g -> ~ g <= neg (lit 20 1) -> trend f = Stable)).
Proof.
  intros Hf. apply generateProductForecasts_In in Hf.
  destruct Hf as [p [_ ->]]. cbn [forecastOf currentMonthlySales
    previousMonthlySales growthRate trend].
  set (w := windowsOf h p sales).
  set (g := growthRateOf (currentQty w) (previousQty w)).
  unfold trendOf, is_zero, lt, le, gtb. split.
  - intros [Hp Hc]. rewrite Hp, Hc. split; [reflexivity|].
    unfold g, growthRateOf, gtb.
    now rewrite (is_zero_not_pos _ Hp), Hc.
  - intros Hnew.
    destruct ((previousQty w === zero) && (zero <? currentQty w)) eqn:E.
    + apply andb_prop in E. contradiction.
    + repeat split.
      * intros Hg. unfold geb. now rewrite Hg.
      * intros Hg. rewrite (le_minus20_not_ge20 _ Hg). now rewrite Hg.
      * intros Hg1 Hg2. unfold geb.
        destruct (lit 20 1 <=? g); [contradiction|].
        destruct (g <=? neg (lit 20 1)); [contradiction|reflexivity].
Qed.

End Forecasts.

Lemma generateProductForecasts_trend_witness :
  trend (forecastOf Sample.host Sample.marchSales Sample.rice) = New.
Proof.
  refine (proj1 (proj1 (generateProductForecasts_trend Sample.host
    [Sample.rice] Sample.marchSales _ _) _)).
  - in_list.
  - split; vm_compute; reflexivity.
Defined.

Section ForecastOrder.

Variable h : Host.

Local Open Scope num_scope.

Lemma add_finite (a : number) (q : Q) : is_finite a -> is_finite (a + Fin q).
Proof.
  destruct a; simpl; tauto.
Qed.

Lemma accumulateSale_finite
  (productId : string) (d30 d60 : Date.t) (w : Windows) (s : Sale) :
  finiteWindows w -> finiteWindows (accumulateSale h productId d30 d60 w s).
Proof.
  unfold finiteWindows, accumulateSale. intros [Hc Hp].
  destruct (findItem productId (sale_items s)) as [it|]; [|now split].
  destruct (Date.geb (Date_parse h (sale_date s)) d30);
    [|destruct (Date.geb (Date_parse h (sale_date s)) d60)];
    cbn [currentQty previousQty]; split;
    assumption || now apply add_finite.
Qed.

Lemma accumulated_finite
  (productId : string) (d30 d60 : Date.t) (sales : list Sale) :
  forall w, finiteWindows w ->
  finiteWindows (fold_left (accumulateSale h productId d30 d60) sales w).
Proof.
  induction sales as [|s rest IH]; intros w Hw; cbn [fold_left].
  - exact Hw.
  - apply IH. now apply accumulateSale_finite.
Qed.

Lemma windowsOf_finite (p : Product) (sales : list Sale) :
  finiteWindows (windowsOf h p sales).
Proof.
  unfold windowsOf. apply accumulated_finite. split; exact I.
Qed.

Lemma forecastOf_finite (sales : list Sale) (p : Product) :
  is_finite (forecastedSales (forecastOf h sales p)).
Proof.
  cbn [forecastOf forecastedSales].
  destruct (windowsOf_finite p sales) as [Hc _].
  destruct (currentQty (windowsOf h p sales)) as [q| | |]; try contradiction.
  match goal with
  | |- context [momentumFactorOf ?t] => destruct t
  end; exact I.
Qed.

Lemma byForecastedSales_byVolume (x y : ProductForecast) :
  is_finite (forecastedSales x) -> is_finite (forecastedSales y) ->
  (after byForecastedSales x y = true -> byVolume y x)
  /\ (after byForecastedSales x y = false -> byVolume x y).
Proof.
  unfold after, byForecastedSales, byVolume, gtb, le.
  destruct (forecastedSales x) as [a| | |]; try contradiction.
  destruct (forecastedSales y) as [b| | |]; try contradiction.
  intros _ _. rewrite sub_pos_iff. cbn [leb].
  split; intros E; qprop; lra.
Qed.

Lemma byVolume_trans (a b c : ProductForecast) :
  byVolume a b -> byVolume b c -> byVolume a c.
Proof.
  unfold byVolume, le.
  destruct (forecastedSales a), (forecastedSales b), (forecastedSales c);
    cbn [leb]; intros H1 H2; try reflexivity; try discriminate;
    qprop; lra.
Qed.

(** Rounding up gives the least whole number that is not below. *)
Lemma Math_ceil_least (x : Q) :
  is_integer (Math_ceil (Fin x))
  /\ Fin x <= Math_ceil (Fin x)
  /\ forall z : Z, Fin x <= of_Z z -> Math_ceil (Fin x) <= of_Z z.
Proof.
  cbn [Math_ceil]. split; [eexists; reflexivity|].
  unfold of_Z, le. cbn [leb]. split.
  - apply Qle_bool_iff. apply Qle_ceiling.
  - intros z Hz. apply Qle_bool_iff in Hz. apply Qle_bool_iff.
    pose proof (Qceiling_lt x) as Hlow.
    assert (Hlt : (inject_Z (Qceiling x - 1) < inject_Z z)%Q)
      by (apply Qlt_le_trans with x; assumption).
    rewrite <- Zlt_Qlt in Hlt. rewrite <- Zle_Qle. lia.
Qed.

(** C7.  In every forecast the forecasted sales are
    [ceil(currentQty * factor)], that is the least whole number not below
    the current quantity times the factor, with the factor 1.2 for High
    Growth, 0.9 for Declining and 1 for Stable and New; and the list of
    forecasts is sorted by descending forecasted sales. *)
Theorem generateProductForecasts_volume
  (products : list Product) (sales : list Sale) :
  let out := generateProductForecasts h products sales in
  (forall f, In f out ->
     let factor := match trend f with
                   | HighGrowth => lit 12 10
                   | Declining => lit 9 10
                   | Stable | New => lit 1 1
                   end in
     is_integer (forecastedSales f)
     /\ currentMonthlySales f * factor <= forecastedSales f
     /\ forall z : Z,
          currentMonthlySales f * factor <= of_Z z ->
          forecastedSales f <= of_Z z)
  /\ StronglySorted byVolume out.
Proof.
  intros out. split.
  - intros f Hf. apply generateProductForecasts_In in Hf.
    destruct Hf as [p [_ ->]].
    cbn [forecastOf forecastedSales currentMonthlySales trend].
    destruct (windowsOf_finite p sales) as [Hc _].
    destruct (currentQty (windowsOf h p sales)) as [c| | |];
      try contradiction.
    match goal with
    | |- context [trendOf ?a ?b ?g] => destruct (trendOf a b g)
    end; unfold momentumFactorOf, lit; cbn [mul]; apply Math_ceil_least.
  - apply Sorted_StronglySorted; [exact byVolume_trans|].
    apply (Array_sort_Sorted byForecastedSales
             (fun f => is_finite (forecastedSales f)) byVolume).
    + intros x y Hx Hy. now apply byForecastedSales_byVolume.
    + intros x y Hx Hy. now apply byForecastedSales_byVolume.
    + apply Forall_forall. intros f Hf.
      apply in_map_iff in Hf. destruct Hf as [p [<- _]].
      apply forecastOf_finite.
Qed.

End ForecastOrder.

Lemma generateProductForecasts_volume_witness :
  let out :=
    generateProductForecasts SampleDays.host SampleTrends.products
      SampleTrends.sales in
  map (fun f => (productId f, trend f, currentMonthlySales f,
                 forecastedSales f)) out
  = [("growing"%string, HighGrowth, lit 13 1, lit 16 1);
     ("new"%string, New, lit 15 1, lit 15 1);
     ("declining"%string, Declining, lit 7 1, lit 7 1)]
  /\ Forall (fun f => is_integer (forecastedSales f)) out
  /\ (lit 13 1 * lit 12 10 <= lit 16 1)%num
  /\ (forall z : Z,
        (lit 13 1 * lit 12 10 <= of_Z z)%num -> (lit 16 1 <= of_Z z)%num)
  /\ StronglySorted byVolume out.
Proof.
  cbv zeta.
  pose proof (generateProductForecasts_volume SampleDays.host
                SampleTrends.products SampleTrends.sales) as [Hval Hsort].
  split; [vm_compute; reflexivity|].
  split; [apply Forall_forall; intros f Hf; exact (proj1 (Hval f Hf))|].
  assert (Hin : In (forecastOf SampleDays.host SampleTrends.sales
                      (SampleTrends.product "growing"))
                   (generateProductForecasts SampleDays.host
                      SampleTrends.products SampleTrends.sales))
    by in_list.
  destruct (Hval _ Hin) as [_ [Hup Hlow]].
  split; [exact Hup|]. split; [exact Hlow|exact Hsort].
Defined.

(** ** Missing cost or price *)

Section MissingFields.

Local Open Scope num_scope.

(** The transfer margin reads a missing cost or price as 0. *)
Lemma marginOf_missing (p : Product) :
  marginOf p
  = Fin (match product_price p with Some q => q | None => 0%Q end)
    - Fin (match product_cost p with Some q => q | None => 0%Q end).
Proof.
  unfold marginOf, field_or_zero, zero.
  now destruct (product_price p), (product_cost p).
Qed.

(** So does the capital blocked in dead stock. *)
Lemma capitalBlockedOf_missing (p : Product) :
  product_cost p = None -> capitalBlockedOf p = totalStockOf p * zero.
Proof.
  unfold capitalBlockedOf. now intros ->.
Qed.

(** The profit a reorder protects does not: it is NaN as soon as the cost
    or the price is missing. *)
Lemma profitProtectedOf_missing (p : Product) (velocity : number) :
  product_cost p = None \/ product_price p = None ->
  profitProtectedOf p velocity = NaN.
Proof.
  unfold profitProtectedOf.
  intros [E|E]; rewrite E; cbn [of_field].
  - destruct (of_field (product_price p)); cbn [sub];
      now destruct (velocity * lit 14 1).
  - cbn [sub]. now destruct (velocity * lit 14 1).
Qed.

(** C9 at a product without a cost.  Selling 1 unit a day with 3 units in
    stock, the product gets one reorder insight; its profit estimate is NaN
    and is printed as such, where the margin with the cost read as 0 gives
    [1 * 14 * (20 - 0) = 280]. *)
Theorem reorder_profit_missing_cost :
  calculateDemandVelocity Sample.host "p2" Sample.saltSales (lit 30 1)
  = lit 1 1
  /\ map actionType
       (generateStrategicInsights Sample.host [Sample.salt] Sample.saltSales)
     = [REORDER]
  /\ map roiImpact
       (generateStrategicInsights Sample.host [Sample.salt] Sample.saltSales)
     = ["Protect ~₹NaN profit"%string]
  /\ profitProtectedOf Sample.salt (lit 1 1) = NaN
  /\ lit 1 1 * lit 14 1 * marginOf Sample.salt = lit 280 1.
Proof.
  repeat split; vm_compute; reflexivity.
Qed.

End MissingFields.

(** * Further properties of the engine *)

(** ** More on the order of numbers *)

Section NumberOrderMore.

Local Open Scope num_scope.

Lemma lt_le_trans (a b c : number) : a < b -> b <= c -> a < c.
Proof.
  destruct a, b, c; num_unfold; try congruence; intros; qprop; lra.
Qed.

Lemma le_lt_trans (a b c : number) : a <= b -> b < c -> a < c.
Proof.
  destruct a, b, c; num_unfold; try congruence; intros; qprop; lra.
Qed.

Lemma Fin_lt (x y : Q) : Fin x < Fin y <-> (x < y)%Q.
Proof. unfold lt. cbn [ltb]. apply Qltb_true. Qed.

Lemma Fin_le (x y : Q) : Fin x <= Fin y <-> (x <= y)%Q.
Proof. unfold le. cbn [leb]. apply Qle_bool_iff. Qed.

Lemma Fin_is_zero (x : Q) : is_zero (Fin x) <-> (x == 0)%Q.
Proof. unfold is_zero, zero. cbn [strict_eqb]. apply Qeq_bool_iff. Qed.

Lemma Qis0_false (x : Q) : ~ (x == 0)%Q -> Qis0 x = false.
Proof. intros H. unfold Qis0. now apply Qeq_bool_false. Qed.

Lemma Qis0_true (x : Q) : (x == 0)%Q -> Qis0 x = true.
Proof. intros H. unfold Qis0. now apply Qeq_bool_iff. Qed.

Lemma Fin_div (x y : Q) :
  ~ (y == 0)%Q -> Fin x / Fin y = Fin (Qred (x / y)).
Proof. intros H. cbn [div]. now rewrite Qis0_false. Qed.

End NumberOrderMore.

(** ** Inventory cover and stock health *)

Section CoverMore.

Local Open Scope num_scope.

Lemma cover_moving (s v : Q) :
  (0 < v)%Q ->
  calculateInventoryCover (Fin s) (Fin v) = Fin (Qred (s / v)).
Proof.
  intros Hv. unfold calculateInventoryCover.
  rewrite lt_not_le by now apply Fin_lt.
  apply Fin_div. lra.
Qed.

Lemma cover_idle (s v : Q) :
  (v <= 0)%Q ->
  calculateInventoryCover (Fin s) (Fin v)
  = if Qltb 0 s then lit 999 1 else zero.
Proof.
  intros Hv. unfold calculateInventoryCover, gtb, zero. cbn [leb ltb].
  replace (Qle_bool v 0) with true; [reflexivity|].
  symmetry. now apply Qle_bool_iff.
Qed.

(** X1.  For a finite stock [s >= 0] and a finite velocity the cover is
    never negative, and it is 0 exactly when the stock is 0. *)
Theorem calculateInventoryCover_zero_iff (s v : Q) :
  (0 <= s)%Q ->
  zero <= calculateInventoryCover (Fin s) (Fin v)
  /\ (is_zero (calculateInventoryCover (Fin s) (Fin v)) <-> (s == 0)%Q).
Proof.
  intros Hs. destruct (Qlt_le_dec 0 v) as [Hv|Hv].
  - rewrite (cover_moving _ _ Hv). unfold zero.
    rewrite Fin_le, Fin_is_zero, Qred_correct.
    assert (Hi : (0 < / v)%Q) by now apply Qinv_lt_0_compat.
    unfold Qdiv. split.
    + apply Qmult_le_0_compat; lra.
    + split; intros H.
      * apply Qmult_integral in H. destruct H; lra.
      * rewrite H. ring.
  - rewrite (cover_idle _ _ Hv).
    destruct (Qltb 0 s) eqn:E; qprop.
    + split; [reflexivity|]. split; [discriminate|]. intros H. lra.
    + split; [reflexivity|]. split; [|reflexivity]. intros _. lra.
Qed.

Lemma calculateInventoryCover_zero_iff_witness :
  is_zero (calculateInventoryCover (Fin 0) (Fin 3)).
Proof.
  apply (calculateInventoryCover_zero_iff 0 3); [discriminate|reflexivity].
Defined.

(** X3.  Stock that does not move ([velocity <= 0], stock positive) is
    classed Overstock exactly when twice the optimal cover stays below the
    sentinel 999, so under the default thresholds always; no stock and no
    movement is classed Stockout Risk as soon as the optimal cover is not
    negative and the safety stock is positive. *)
Theorem analyzeStockHealth_idle (s v opt safety : Q) :
  (v <= 0)%Q ->
  let health :=
    analyzeStockHealth (calculateInventoryCover (Fin s) (Fin v))
                       (Fin opt) (Fin safety) in
  ((0 < s)%Q -> (health = Overstock <-> (2 * opt < 999)%Q))
  /\ ((s == 0)%Q -> (0 <= opt)%Q -> (0 < safety)%Q -> health = StockoutRisk).
Proof.
  intros Hv health. unfold health. rewrite (cover_idle _ _ Hv).
  unfold analyzeStockHealth, gtb, lit, zero. cbn [mul ltb]. split.
  - intros Hs. replace (Qltb 0 s) with true
      by (symmetry; now apply Qltb_true).
    cbn [ltb]. destruct (Qltb (Qred (2 * opt)) 999) eqn:E; qprop;
      rewrite Qred_correct in E.
    + split; [intros _; exact E|reflexivity].
    + split; [|intros H; lra].
      destruct (Qltb 999 safety); discriminate.
  - intros Hs Ho Hf. replace (Qltb 0 s) with false
      by (symmetry; apply Qltb_false; lra).
    cbn [ltb]. replace (Qltb (Qred (2 * opt)) 0) with false
      by (symmetry; apply Qltb_false; rewrite Qred_correct; lra).
    replace (Qltb 0 safety) with true
      by (symmetry; now apply Qltb_true).
    reflexivity.
Qed.

Lemma analyzeStockHealth_idle_witness :
  analyzeStockHealth (calculateInventoryCover (Fin 5) (Fin 0))
                     (Fin 30) (Fin 7) = Overstock
  /\ analyzeStockHealth (calculateInventoryCover (Fin 0) (Fin 0))
                        (Fin 30) (Fin 7) = StockoutRisk.
Proof.
  split.
  - apply (proj1 (analyzeStockHealth_idle 5 0 30 7 ltac:(discriminate)));
      reflexivity.
  - apply (proj2 (analyzeStockHealth_idle 0 0 30 7 ltac:(discriminate)));
      try reflexivity; discriminate.
Defined.

End CoverMore.

(** ** Demand velocity: composition and edge cases *)

Section VelocityMore.

Variable h : Host.

Local Open Scope Q_scope.

Lemma velocity_window (productId : string) (sales : list Sale) (days : Q) :
  0 < days ->
  calculateDemandVelocity h productId sales (Fin days)
  = Fin (Qred (windowQty h productId (Fin days) sales / days)).
Proof.
  intros Hd.
  assert (Hz : ~ days == 0) by lra.
  unfold calculateDemandVelocity. destruct sales as [|s0 rest].
  - reflexivity.
  - set (sales := s0 :: rest).
    rewrite (filter_ext _ (inWindow h (Fin days))
               (relevant_inWindow h (Fin days))).
    destruct (totalQty_sum h productId (Fin days) sales 0) as [q [Hq Hs]].
    unfold zero. rewrite Hq. rewrite Fin_div by exact Hz.
    f_equal. apply Qred_complete. rewrite Hs, Qplus_0_l. reflexivity.
Qed.

Lemma windowQty_Permutation
  (productId : string) (days : number) (l1 l2 : list Sale) :
  Permutation l1 l2 ->
  windowQty h productId days l1 == windowQty h productId days l2.
Proof.
  induction 1 as [|s l1 l2 _ IH|s s' l|l1 l2 l3 _ IH1 _ IH2];
    cbn [windowQty]; lra.
Qed.

Lemma firstMatchQty_nonneg (productId : string) (its : list Item) :
  Forall (fun it => 0 <= item_quantity it) its ->
  0 <= firstMatchQty productId its.
Proof.
  induction 1 as [|it rest Hit _ IH]; cbn [firstMatchQty]; [lra|].
  now destruct (String.eqb (item_id it) productId).
Qed.

Lemma matchedQty_nonneg (productId : string) (s : Sale) :
  Forall (fun it => 0 <= item_quantity it) (sale_items s) ->
  0 <= matchedQty productId s.
Proof. apply firstMatchQty_nonneg. Qed.

Lemma windowQty_nonneg
  (productId : string) (days : number) (sales : list Sale) :
  nonnegSales sales -> 0 <= windowQty h productId days sales.
Proof.
  induction 1 as [|s rest Hs _ IH]; cbn [windowQty]; [lra|].
  pose proof (matchedQty_nonneg productId s Hs).
  destruct (inWindow h days s); lra.
Qed.

Lemma hasItem_findItem (productId : string) (its : list Item) :
  hasItem productId its = false -> findItem productId its = None.
Proof.
  unfold hasItem, findItem.
  induction its as [|it its IH]; cbn [existsb find]; [reflexivity|].
  destruct (String.eqb (item_id it) productId); [discriminate|]. exact IH.
Qed.

Lemma findItem_hasItem (productId : string) (its : list Item) (it : Item) :
  findItem productId its = Some it -> hasItem productId its = true.
Proof.
  intros E. destruct (hasItem productId its) eqn:H; [reflexivity|].
  apply hasItem_findItem in H. congruence.
Qed.

Lemma hasItem_matchedQty (productId : string) (s : Sale) :
  hasItem productId (sale_items s) = false -> matchedQty productId s = 0.
Proof.
  unfold hasItem, matchedQty.
  induction (sale_items s) as [|it its IH]; cbn [existsb firstMatchQty];
    [reflexivity|].
  destruct (String.eqb (item_id it) productId); [discriminate|]. exact IH.
Qed.

Lemma windowQty_neverSold
  (productId : string) (days : number) (sales : list Sale) :
  neverSold productId sales -> windowQty h productId days sales == 0.
Proof.
  induction 1 as [|s rest Hs _ IH]; cbn [windowQty]; [lra|].
  rewrite (hasItem_matchedQty _ _ Hs), IH.
  destruct (inWindow h days s); lra.
Qed.

(** X5.  For [days > 0] and sales in whole quantities the velocity does
    not depend on the order of the sales. *)
Theorem calculateDemandVelocity_Permutation
  (productId : string) (l1 l2 : list Sale) (days : Q) :
  0 < days -> wholeSales l1 -> Permutation l1 l2 ->
  calculateDemandVelocity h productId l1 (Fin days)
  = calculateDemandVelocity h productId l2 (Fin days).
Proof.
  intros Hd _ Hp. rewrite !velocity_window by exact Hd.
  f_equal. apply Qred_complete.
  now rewrite (windowQty_Permutation _ _ _ _ Hp).
Qed.

(** X6.  For [days > 0] and sales without negative quantities the
    velocity is never negative. *)
Theorem calculateDemandVelocity_nonneg
  (productId : string) (sales : list Sale) (days : Q) :
  0 < days -> nonnegSales sales ->
  (zero <= calculateDemandVelocity h productId sales (Fin days))%num.
Proof.
  intros Hd Hn. rewrite velocity_window by exact Hd.
  unfold zero. rewrite Fin_le, Qred_correct.
  pose proof (windowQty_nonneg productId (Fin days) sales Hn) as Hw.
  assert (Hi : 0 < / days) by now apply Qinv_lt_0_compat.
  unfold Qdiv. apply Qmult_le_0_compat; lra.
Qed.

Lemma velocity_neverSold (productId : string) (sales : list Sale) :
  neverSold productId sales ->
  forall days, 0 < days ->
  calculateDemandVelocity h productId sales (Fin days) = zero.
Proof.
  intros Hn days Hd. rewrite velocity_window by exact Hd.
  unfold zero. f_equal. transitivity (Qred 0); [|reflexivity].
  apply Qred_complete.
  rewrite (windowQty_neverSold _ (Fin days) _ Hn). unfold Qdiv. ring.
Qed.

(** X7.  For [days > 0] the velocity of a product that no sale holds
    is 0. *)
Theorem calculateDemandVelocity_neverSold
  (productId : string) (sales : list Sale) (days : Q) :
  0 < days -> neverSold productId sales ->
  calculateDemandVelocity h productId sales (Fin days) = zero.
Proof. intros Hd Hn. now apply velocity_neverSold. Qed.

End VelocityMore.

Lemma calculateDemandVelocity_Permutation_witness :
  calculateDemandVelocity Sample.host "p1"
    (Sample.marchSales ++ Sample.saltSales) (Fin 30)
  = calculateDemandVelocity Sample.host "p1"
      (Sample.saltSales ++ Sample.marchSales) (Fin 30).
Proof.
  apply calculateDemandVelocity_Permutation.
  - reflexivity.
  - whole_sales.
  - apply Permutation_app_comm.
Defined.

Lemma calculateDemandVelocity_nonneg_witness :
  (zero <= calculateDemandVelocity Sample.host "p1" Sample.marchSales
             (Fin 30))%num.
Proof.
  apply calculateDemandVelocity_nonneg.
  - reflexivity.
  - repeat constructor. discriminate.
Defined.

Lemma calculateDemandVelocity_neverSold_witness :
  calculateDemandVelocity Sample.host "p1" Sample.saltSales (Fin 30) = zero.
Proof.
  apply calculateDemandVelocity_neverSold.
  - reflexivity.
  - repeat constructor.
Defined.

(** ** Dead stock: recency, threshold and order of the sales *)

Section DeadStockMore.

Variable h : Host.

Lemma daysSince_valid (tv : Z) :
  exists q : Q,
    daysSince h (Some tv) = Fin q
    /\ q == inject_Z (clock h - tv) / 86400000.
Proof.
  unfold daysSince, now, Date.getTime, of_Z.
  change (lit 1000 1 * lit 3600 1 * lit 24 1)%num with (Fin 86400000).
  cbn [sub]. rewrite Fin_div by discriminate.
  eexists. split; [reflexivity|].
  rewrite !Qred_correct. unfold Z.sub.
  rewrite inject_Z_plus, inject_Z_opp. reflexivity.
Qed.

Lemma saleTimes_In (p : Product) (sales : list Sale) (s : Sale) (tv : Z) :
  In s sales ->
  hasItem (product_id p) (sale_items s) = true ->
  Date_parse h (sale_date s) = Some tv ->
  In tv (saleTimes h p sales).
Proof.
  intros Hs Hi Hd. unfold saleTimes. apply in_flat_map.
  exists s. split; [exact Hs|]. rewrite Hi, Hd. now left.
Qed.

Lemma saleTimes_Permutation (p : Product) (l1 l2 : list Sale) :
  Permutation l1 l2 -> Permutation (saleTimes h p l1) (saleTimes h p l2).
Proof.
  intros Hp. unfold saleTimes. now apply Permutation_flat_map.
Qed.

Lemma latestOf_le (floor : Z) (l1 l2 : list Z) :
  (forall tv, In tv l1 -> In tv l2) ->
  (latestOf floor l1 <= latestOf floor l2)%Z.
Proof.
  intros Hincl.
  destruct (latestOf_member l1 floor) as [E|Hin].
  - rewrite E. apply latestOf_floor.
  - now apply latestOf_upper, Hincl.
Qed.

Lemma latestOf_Permutation (floor : Z) (l1 l2 : list Z) :
  Permutation l1 l2 -> latestOf floor l1 = latestOf floor l2.
Proof.
  intros Hp. apply Z.le_antisymm; apply latestOf_le; intros tv Hin.
  - now apply (Permutation_in _ Hp).
  - now apply (Permutation_in _ (Permutation_sym Hp)).
Qed.

(** The days since a sale of the product bound those since its last
    sale. *)
Lemma daysSince_last_le
  (p : Product) (sales : list Sale) (s : Sale) (tv : Z) :
  In s sales ->
  hasItem (product_id p) (sale_items s) = true ->
  Date_parse h (sale_date s) = Some tv ->
  exists q : Q,
    daysSince h (lastSaleDateOf h p sales) = Fin q
    /\ q <= inject_Z (clock h - tv) / 86400000.
Proof.
  intros Hs Hi Hd. rewrite lastSaleDateOf_latest.
  destruct (daysSince_valid (latestOf 0 (saleTimes h p sales)))
    as [q [Hq Hv]].
  exists q. split; [exact Hq|]. rewrite Hv.
  pose proof (latestOf_upper _ 0%Z tv (saleTimes_In p sales s tv Hs Hi Hd))
    as Hup.
  unfold Qdiv. apply Qmult_le_compat_r; [|discriminate].
  rewrite <- Zle_Qle. lia.
Qed.

Lemma recent_sale_not_dead
  (p : Product) (sales : list Sale) (s : Sale) (tv : Z) (threshold : Q) :
  In s sales ->
  hasItem (product_id p) (sale_items s) = true ->
  Date_parse h (sale_date s) = Some tv ->
  inject_Z (clock h - tv) <= threshold * 86400000 ->
  detectDeadStock h p sales (Fin threshold) = false.
Proof.
  intros Hs Hi Hd Hrecent. unfold detectDeadStock.
  destruct (daysSince_last_le p sales s tv Hs Hi Hd) as [q [Hq Hle]].
  rewrite Hq. unfold gtb at 2. cbn [ltb].
  replace (Qltb threshold q) with false; [apply andb_false_r|].
  symmetry. apply Qltb_false.
  apply Qle_trans with (1 := Hle).
  apply Qle_shift_div_r; [reflexivity|exact Hrecent].
Qed.

(** X8.  A product is not dead stock when one of its sales, with a valid
    date, lies at most [thresholdDays] days before the clock reading;
    other, older or undated, sales do not matter. *)
Theorem detectDeadStock_recent_sale
  (p : Product) (sales : list Sale) (s : Sale) (tv : Z) (threshold : Q) :
  In s sales ->
  hasItem (product_id p) (sale_items s) = true ->
  Date_parse h (sale_date s) = Some tv ->
  inject_Z (clock h - tv) <= threshold * 86400000 ->
  detectDeadStock h p sales (Fin threshold) = false.
Proof. exact (recent_sale_not_dead p sales s tv threshold). Qed.

(** X9.  Lowering the threshold keeps a product flagged: dead stock at a
    threshold is dead stock at every smaller one. *)
Theorem detectDeadStock_threshold_mono
  (p : Product) (sales : list Sale) (t1 t2 : number) :
  (t1 <= t2)%num ->
  detectDeadStock h p sales t2 = true ->
  detectDeadStock h p sales t1 = true.
Proof.
  unfold detectDeadStock. intros Hle Hdead.
  apply andb_prop in Hdead. destruct Hdead as [Hstock Hdays].
  rewrite Hstock. cbn [andb]. unfold gtb in *.
  exact (le_lt_trans _ _ _ Hle Hdays).
Qed.

(** X10.  Dead-stock detection does not depend on the order of the
    sales. *)
Theorem detectDeadStock_Permutation
  (p : Product) (l1 l2 : list Sale) (thresholdDays : number) :
  Permutation l1 l2 ->
  detectDeadStock h p l1 thresholdDays = detectDeadStock h p l2 thresholdDays.
Proof.
  intros Hp. unfold detectDeadStock.
  rewrite !lastSaleDateOf_latest.
  now rewrite (latestOf_Permutation 0 _ _ (saleTimes_Permutation p _ _ Hp)).
Qed.

Lemma windowQty_pos (productId : string) (days : number) (sales : list Sale) :
  0 < windowQty h productId days sales ->
  exists s, In s sales /\ inWindow h days s = true
            /\ hasItem productId (sale_items s) = true.
Proof.
  induction sales as [|s rest IH]; cbn [windowQty]; [lra|].
  intros Hpos.
  destruct (inWindow h days s) eqn:Ew.
  - destruct (hasItem productId (sale_items s)) eqn:Eh.
    + exists s. repeat split; [now left|exact Ew|exact Eh].
    + rewrite (hasItem_matchedQty _ _ Eh) in Hpos.
      destruct IH as [s' [Hin H']]; [lra|]. exists s'. split; [now right|].
      exact H'.
  - destruct IH as [s' [Hin H']]; [lra|]. exists s'. split; [now right|].
    exact H'.
Qed.

(** Going back a whole number of days lands within two days of that many
    times 24 hours: the offsets of local time stay within a day. *)
Lemma daysAgo_near (d : Z) :
  exists start : Z,
    daysAgo h (of_Z d) = Some start
    /\ (clock h - (d + 2) * 86400000 <= start
        <= clock h - (d - 2) * 86400000)%Z.
Proof.
  unfold daysAgo, Date.getDate, Date.setDate, Date.LocalTime, Date.UTC,
    of_Z, Date.msPerDay.
  cbn [sub].
  set (local := (clock h + LocalTZA h (clock h) true)%Z).
  set (dom := Date.DateFromTime local).
  rewrite (ToInteger_whole _ (dom - d)).
  - eexists. split; [reflexivity|].
    pose proof (LocalTZA_range h (clock h) true) as H1.
    pose proof (LocalTZA_range h (local + (dom - d - dom) * 86400000) false)
      as H2.
    unfold local in *. lia.
  - rewrite Qred_correct. unfold Z.sub.
    rewrite inject_Z_plus, inject_Z_opp. reflexivity.
Qed.

Lemma moving_not_dead
  (p : Product) (sales : list Sale) (days : Z) (threshold : Q) :
  (0 < days)%Z ->
  (zero < calculateDemandVelocity h (product_id p) sales (of_Z days))%num ->
  inject_Z days + 2 <= threshold ->
  detectDeadStock h p sales (Fin threshold) = false.
Proof.
  intros Hd Hv Ht.
  assert (Hi : 0 < inject_Z days).
  { unfold Qlt, inject_Z. simpl. lia. }
  unfold of_Z in Hv. rewrite velocity_window in Hv by exact Hi.
  unfold zero in Hv. rewrite Fin_lt, Qred_correct in Hv.
  assert (Hw : 0 < windowQty h (product_id p) (Fin (inject_Z days)) sales).
  { destruct (Qlt_le_dec 0
                (windowQty h (product_id p) (Fin (inject_Z days)) sales))
      as [H|H]; [exact H|].
    exfalso. apply (Qlt_irrefl 0). apply Qlt_le_trans with (1 := Hv).
    apply Qle_shift_div_r; [exact Hi|]. lra. }
  destruct (windowQty_pos _ _ _ Hw) as [s [Hs [Hwin Hitem]]].
  unfold inWindow in Hwin.
  destruct (Date_parse h (sale_date s)) as [tv|] eqn:Hdate; [|discriminate].
  destruct (daysAgo_near days) as [start [Hstart [Hlow _]]].
  unfold of_Z in Hstart. rewrite Hstart in Hwin.
  apply andb_prop in Hwin. destruct Hwin as [Hlo _].
  apply Z.leb_le in Hlo.
  apply (recent_sale_not_dead p sales s tv threshold Hs Hitem Hdate).
  apply Qle_trans with ((inject_Z days + 2) * 86400000).
  - change 2 with (inject_Z 2). change 86400000 with (inject_Z 86400000).
    rewrite <- inject_Z_plus, <- inject_Z_mult, <- Zle_Qle. lia.
  - apply Qmult_le_compat_r; [exact Ht|discriminate].
Qed.

(** X11.  A product with a positive velocity over a whole number
    [days > 0] of days is not dead stock at any threshold of at least
    [days + 2] days: the two days cover the shift of the window by the
    offsets of local time. *)
Theorem detectDeadStock_moving
  (p : Product) (sales : list Sale) (days : Z) (threshold : Q) :
  (0 < days)%Z ->
  (zero < calculateDemandVelocity h (product_id p) sales (of_Z days))%num ->
  inject_Z days + 2 <= threshold ->
  detectDeadStock h p sales (Fin threshold) = false.
Proof. exact (moving_not_dead p sales days threshold). Qed.

End DeadStockMore.

Lemma detectDeadStock_recent_sale_witness :
  detectDeadStock Sample.host Sample.rice Sample.marchSales (Fin 90) = false.
Proof.
  refine (detectDeadStock_recent_sale Sample.host Sample.rice
            Sample.marchSales
            (Sample.sale "2024-03-25T00:00:00.000Z" "store-downtown"
               [Sample.item "p1" 15])
            1711324800000 90 _ _ _ _).
  - in_list.
  - reflexivity.
  - reflexivity.
  - vm_compute. discriminate.
Defined.

Lemma detectDeadStock_threshold_mono_witness :
  detectDeadStock Sample.host Sample.rice [] (lit 30 1) = true.
Proof.
  apply (detectDeadStock_threshold_mono Sample.host Sample.rice []
           (lit 30 1) (lit 90 1)).
  - reflexivity.
  - vm_compute. reflexivity.
Defined.

Lemma detectDeadStock_Permutation_witness :
  detectDeadStock Sample.host Sample.rice
    (Sample.marchSales ++ Sample.saltSales) (lit 90 1)
  = detectDeadStock Sample.host Sample.rice
      (Sample.saltSales ++ Sample.marchSales) (lit 90 1).
Proof.
  apply detectDeadStock_Permutation. apply Permutation_app_comm.
Defined.

Lemma detectDeadStock_moving_witness :
  detectDeadStock Sample.host Sample.rice Sample.marchSales (Fin 90) = false.
Proof.
  apply (detectDeadStock_moving Sample.host Sample.rice Sample.marchSales
           30%Z).
  - reflexivity.
  - vm_compute. reflexivity.
  - vm_compute. discriminate.
Defined.

(** ** Transfers: route, quantity and margin *)

Section TransfersMore.

Variable h : Host.

Local Open Scope num_scope.

Lemma locStatsOf_map (p : Product) (sales : list Sale) :
  locStatsOf h p sales = map (locStatOf h p sales) warehouseIds.
Proof.
  unfold locStatsOf. apply map_ext. intros loc.
  unfold locStatOf, stockAt, salesAt.
  now destruct (lookup loc (product_stock p)).
Qed.

(** What stands behind an emitted transfer. *)
Lemma transfer_inv
  (products : list Product) (sales : list Sale) (i : StrategicInsight) :
  In i (findTransferOpportunities h products sales) ->
  exists p src dst,
    let source := locStatOf h p sales src in
    let target := locStatOf h p sales dst in
    let qty := transferQtyOf source target in
    In p products /\ In src warehouseIds /\ In dst warehouseIds
    /\ lit 60 1 < loc_cover source
    /\ loc_cover target < lit 10 1
    /\ lit 1 10 < loc_velocity target
    /\ lit 10 1 < loc_stock source
    /\ zero < qty
    /\ transferCostOf qty < estimatedGainOf p qty
    /\ i = transferInsight h p source target qty.
Proof.
  unfold findTransferOpportunities, transfersOfProduct. intros Hi.
  apply in_flat_map in Hi. destruct Hi as [p [Hp Hi]].
  rewrite locStatsOf_map in Hi.
  apply in_flat_map in Hi. destruct Hi as [source [Hsrc Hi]].
  apply in_flat_map in Hi. destruct Hi as [target [Hdst Hi]].
  apply filter_In in Hsrc. destruct Hsrc as [Hsrc Hover].
  apply filter_In in Hdst. destruct Hdst as [Hdst Hstarve].
  apply in_map_iff in Hsrc. destruct Hsrc as [src [<- Hsrc]].
  apply in_map_iff in Hdst. destruct Hdst as [dst [<- Hdst]].
  apply andb_prop in Hstarve. destruct Hstarve as [Hcover Hvel].
  unfold matchPair in Hi.
  destruct (loc_stock (locStatOf h p sales src) >? lit 10 1) eqn:Hstock;
    [|contradiction].
  destruct (transferQtyOf (locStatOf h p sales src)
                          (locStatOf h p sales dst) >? zero) eqn:Hqty;
    [|contradiction].
  match type of Hi with
  | In _ (if ?c then _ else _) => destruct c eqn:Hgain; [|contradiction]
  end.
  destruct Hi as [<-|[]].
  exists p, src, dst. cbv zeta. repeat split; assumption.
Qed.

Lemma lt_60_10 (c c' : number) : lit 60 1 < c -> c' < lit 10 1 -> c <> c'.
Proof.
  intros H1 H2 ->. destruct c'; num_unfold; try congruence.
  qprop. lra.
Qed.

(** X12.  A transfer goes from one of the four listed locations to
    another one: its source and its target are never the same place. *)
Theorem findTransferOpportunities_route
  (products : list Product) (sales : list Sale) (i : StrategicInsight) :
  In i (findTransferOpportunities h products sales) ->
  exists productId src dst qty,
    metadata i = TransferMeta productId src dst qty
    /\ In src warehouseIds /\ In dst warehouseIds /\ src <> dst.
Proof.
  intros Hi. destruct (transfer_inv _ _ _ Hi) as [p [src [dst H]]].
  cbv zeta in H.
  destruct H as [_ [Hsrc [Hdst [Hover [Hcover [_ [_ [_ [_ ->]]]]]]]]].
  eexists _, src, dst, _. repeat split; try assumption.
  intros ->. exact (lt_60_10 _ _ Hover Hcover eq_refl).
Qed.

End TransfersMore.

Lemma findTransferOpportunities_route_witness :
  exists productId src dst qty,
    metadata
      (transferInsight Sample.host Sample.rice
         (locStatOf Sample.host Sample.rice Sample.marchSales "warehouse-a")
         (locStatOf Sample.host Sample.rice Sample.marchSales
            "store-downtown")
         (lit 13 1))
    = TransferMeta productId src dst qty
    /\ src <> dst.
Proof.
  match goal with
  | |- context [metadata ?i] =>
      assert (Hin : In i (findTransferOpportunities Sample.host
                            [Sample.rice] Sample.marchSales)) by in_list
  end.
  destruct (findTransferOpportunities_route Sample.host
    [Sample.rice] Sample.marchSales _ Hin)
    as [pid [src [dst [qty [Hm [_ [_ Hne]]]]]]].
  exists pid, src, dst, qty. split; [exact Hm|exact Hne].
Defined.

Section TransferQuantity.

Variable h : Host.

Local Open Scope num_scope.

(** The quantity of a transfer between locations with finite figures: a
    whole number below both caps. *)
Lemma transferQtyOf_caps (source target : LocStat) (s c v : Q) :
  loc_stock source = Fin s ->
  loc_cover target = Fin c ->
  loc_velocity target = Fin v ->
  exists z : Z,
    transferQtyOf source target = of_Z z
    /\ (inject_Z z <= s * (1 # 2))%Q
    /\ (inject_Z z <= (30 - c) * v)%Q.
Proof.
  intros Hs Hc Hv. unfold transferQtyOf. rewrite Hs, Hc, Hv.
  unfold lit. cbn [mul sub Math_min ltb].
  match goal with
  | |- context [Qltb ?b ?a] =>
      assert (Ha : (a == s * (1 # 2))%Q)
        by (now rewrite Qred_correct);
      assert (Hb : (b == (30 - c) * v)%Q)
        by (now rewrite !Qred_correct);
      destruct (Qltb b a) eqn:E
  end; qprop; cbn [Math_floor]; eexists; (split; [reflexivity|]);
    split;
    match goal with
    | |- (inject_Z (Qfloor ?m) <= _)%Q => pose proof (Qfloor_le m)
    end; lra.
Qed.

Lemma velocity_finite (productId : string) (sales : list Sale) :
  exists v : Q, calculateDemandVelocity h productId sales (lit 30 1) = Fin v.
Proof.
  eexists. unfold lit. apply velocity_window. reflexivity.
Qed.

(** X13.  The quantity of a transfer is a positive whole number, at most
    half the stock of the source. *)
Theorem findTransferOpportunities_quantity
  (products : list Product) (sales : list Sale) (i : StrategicInsight) :
  In i (findTransferOpportunities h products sales) ->
  exists p src dst qty,
    In p products
    /\ metadata i = TransferMeta (product_id p) src dst qty
    /\ is_integer qty
    /\ zero < qty
    /\ qty <= Fin (stockAt p src) * lit 1 2.
Proof.
  intros Hi. destruct (transfer_inv h _ _ _ Hi) as [p [src [dst H]]].
  cbv zeta in H.
  destruct H as [Hp [_ [_ [_ [_ [Hvel [_ [Hqty [_ ->]]]]]]]]].
  exists p, src, dst,
    (transferQtyOf (locStatOf h p sales src) (locStatOf h p sales dst)).
  split; [exact Hp|]. split; [reflexivity|].
  destruct (velocity_finite (product_id p) (salesAt dst sales)) as [v Hv].
  cbn [locStatOf loc_velocity] in Hvel. rewrite Hv in Hvel.
  unfold lit in Hvel. apply Fin_lt in Hvel.
  assert (Hv0 : (0 < v)%Q) by lra.
  destruct (transferQtyOf_caps (locStatOf h p sales src)
              (locStatOf h p sales dst)
              (stockAt p src) (Qred (stockAt p dst / v)) v)
    as [z [Hz [Hhalf _]]].
  - reflexivity.
  - cbn [locStatOf loc_cover]. rewrite Hv. now apply cover_moving.
  - cbn [locStatOf loc_velocity]. exact Hv.
  - rewrite Hz in *. split; [now exists z|].
    split; [exact Hqty|]. unfold of_Z, lit. cbn [mul].
    apply Fin_le. rewrite Qred_correct. exact Hhalf.
Qed.

(** X14.  A transfer is only proposed for a product whose margin, a
    missing price or cost read as 0, is above the unit cost 2 of the
    transfer. *)
Theorem findTransferOpportunities_margin
  (products : list Product) (sales : list Sale) (i : StrategicInsight) :
  In i (findTransferOpportunities h products sales) ->
  exists p src dst qty,
    In p products
    /\ metadata i = TransferMeta (product_id p) src dst qty
    /\ lit 2 1
       < field_or_zero (product_price p) - field_or_zero (product_cost p).
Proof.
  intros Hi. destruct (transfer_inv h _ _ _ Hi) as [p [src [dst H]]].
  cbv zeta in H.
  destruct H as [Hp [_ [_ [_ [_ [Hvel [_ [Hqty [Hgain ->]]]]]]]]].
  eexists p, src, dst, _.
  split; [exact Hp|]. split; [reflexivity|].
  destruct (velocity_finite (product_id p) (salesAt dst sales)) as [v Hv].
  cbn [locStatOf loc_velocity] in Hvel. rewrite Hv in Hvel.
  unfold lit in Hvel. apply Fin_lt in Hvel.
  assert (Hv0 : (0 < v)%Q) by lra.
  destruct (transferQtyOf_caps (locStatOf h p sales src)
              (locStatOf h p sales dst)
              (stockAt p src) (Qred (stockAt p dst / v)) v)
    as [z [Hz _]].
  - reflexivity.
  - cbn [locStatOf loc_cover]. rewrite Hv. now apply cover_moving.
  - cbn [locStatOf loc_velocity]. exact Hv.
  - rewrite Hz in Hqty, Hgain.
    unfold estimatedGainOf, transferCostOf, marginOf in Hgain.
    unfold field_or_zero, zero, of_Z, lit in *.
    destruct (product_price p) as [pr|], (product_cost p) as [co|];
      cbn [sub mul add] in *;
      apply Fin_lt in Hqty; apply Fin_lt in Hgain; apply Fin_lt;
      rewrite ?Qred_correct in *; nra.
Qed.

End TransferQuantity.

Lemma findTransferOpportunities_quantity_witness :
  exists p src dst qty,
    metadata
      (transferInsight Sample.host Sample.rice
         (locStatOf Sample.host Sample.rice Sample.marchSales "warehouse-a")
         (locStatOf Sample.host Sample.rice Sample.marchSales
            "store-downtown")
         (lit 13 1))
    = TransferMeta (product_id p) src dst qty
    /\ is_integer qty
    /\ (zero < qty)%num
    /\ (qty <= Fin (stockAt p src) * lit 1 2)%num.
Proof.
  match goal with
  | |- context [metadata ?i] =>
      assert (Hin : In i (findTransferOpportunities Sample.host
                            [Sample.rice] Sample.marchSales)) by in_list
  end.
  destruct (findTransferOpportunities_quantity Sample.host
    [Sample.rice] Sample.marchSales _ Hin)
    as [p [src [dst [qty [_ [Hm Hq]]]]]].
  exists p, src, dst, qty. split; [exact Hm|exact Hq].
Defined.

Lemma findTransferOpportunities_margin_witness :
  exists p src dst qty,
    metadata
      (transferInsight Sample.host Sample.rice
         (locStatOf Sample.host Sample.rice Sample.marchSales "warehouse-a")
         (locStatOf Sample.host Sample.rice Sample.marchSales
            "store-downtown")
         (lit 13 1))
    = TransferMeta (product_id p) src dst qty
    /\ (lit 2 1
        < field_or_zero (product_price p) - field_or_zero (product_cost p))%num.
Proof.
  match goal with
  | |- context [metadata ?i] =>
      assert (Hin : In i (findTransferOpportunities Sample.host
                            [Sample.rice] Sample.marchSales)) by in_list
  end.
  destruct (findTransferOpportunities_margin Sample.host
    [Sample.rice] Sample.marchSales _ Hin)
    as [p [src [dst [qty [_ [Hm Hmargin]]]]]].
  exists p, src, dst, qty. split; [exact Hm|exact Hmargin].
Defined.

Section TransferCount.

Variable h : Host.

Local Open Scope num_scope.

Lemma neverSold_salesAt (productId loc : string) (sales : list Sale) :
  neverSold productId sales -> neverSold productId (salesAt loc sales).
Proof.
  unfold neverSold, salesAt. rewrite !Forall_forall.
  intros Hn s Hs. apply filter_In in Hs. now apply Hn.
Qed.

Lemma no_transfer_without_sales (sales : list Sale) (p : Product) :
  neverSold (product_id p) sales -> transfersOfProduct h sales p = [].
Proof.
  intros Hn.
  destruct (transfersOfProduct h sales p) as [|i rest] eqn:E;
    [reflexivity|exfalso].
  assert (Hi : In i (findTransferOpportunities h [p] sales)).
  { unfold findTransferOpportunities. cbn [flat_map].
    rewrite app_nil_r, E. now left. }
  destruct (transfer_inv h _ _ _ Hi) as [p' [src [dst H]]].
  cbv zeta in H. destruct H as [[<-|[]] [_ [_ [_ [_ [Hvel _]]]]]].
  cbn [locStatOf loc_velocity] in Hvel. unfold lit in Hvel.
  rewrite (velocity_neverSold h _ _ (neverSold_salesAt _ dst _ Hn))
    in Hvel by reflexivity.
  discriminate Hvel.
Qed.

End TransferCount.

Section TransferBounds.

Variable h : Host.

Local Open Scope num_scope.

(** X15.  Products that no sale holds yield no transfer; in particular
    there is none without sales. *)
Theorem findTransferOpportunities_neverSold
  (products : list Product) (sales : list Sale) :
  (forall p, In p products -> neverSold (product_id p) sales) ->
  findTransferOpportunities h products sales = [].
Proof.
  unfold findTransferOpportunities.
  induction products as [|p rest IH]; intros Hn; cbn [flat_map];
    [reflexivity|].
  rewrite (no_transfer_without_sales h sales p) by (apply Hn; now left).
  apply IH. intros q Hq. apply Hn. now right.
Qed.

Lemma flat_map_length_le {A B : Type} (f : A -> list B) (k : nat)
      (l : list A) :
  (forall x, In x l -> (List.length (f x) <= k)%nat) ->
  (List.length (flat_map f l) <= k * List.length l)%nat.
Proof.
  induction l as [|x l IH]; intros Hf; cbn [flat_map List.length]; [lia|].
  rewrite length_app.
  pose proof (Hf x (or_introl eq_refl)).
  assert (List.length (flat_map f l) <= k * List.length l)%nat
    by (apply IH; intros y Hy; apply Hf; now right).
  lia.
Qed.

Lemma filter_disjoint_length {A : Type} (f g : A -> bool) (l : list A) :
  (forall x, f x = true -> g x = true -> False) ->
  (List.length (filter f l) + List.length (filter g l)
   <= List.length l)%nat.
Proof.
  intros Hd. induction l as [|x l IH]; cbn [filter List.length]; [lia|].
  destruct (f x) eqn:Ef, (g x) eqn:Eg; cbn [List.length]; try lia.
  exfalso. exact (Hd x Ef Eg).
Qed.

Lemma matchPair_length (p : Product) (source target : LocStat) :
  (List.length (matchPair h p source target) <= 1)%nat.
Proof.
  unfold matchPair.
  repeat match goal with
         | |- context [if ?c then _ else _] => destruct c
         end; cbn [List.length]; lia.
Qed.

Lemma transfersOfProduct_length (sales : list Sale) (p : Product) :
  (List.length (transfersOfProduct h sales p) <= 4)%nat.
Proof.
  unfold transfersOfProduct.
  set (stats := locStatsOf h p sales).
  set (over := fun l : LocStat => loc_cover l >? lit 60 1).
  set (starve := fun l : LocStat =>
                   (loc_cover l <? lit 10 1) && (loc_velocity l >? lit 1 10)).
  assert (Hlen : List.length stats = 4%nat) by reflexivity.
  assert (Hsum : (List.length (filter over stats)
                  + List.length (filter starve stats) <= 4)%nat).
  { rewrite <- Hlen. apply filter_disjoint_length.
    intros l Ho Hs. unfold over, starve in *.
    apply andb_prop in Hs. destruct Hs as [Hs _].
    exact (lt_60_10 _ _ Ho Hs eq_refl). }
  assert (Hpairs :
    (List.length
       (flat_map (fun source => flat_map (matchPair h p source)
                                         (filter starve stats))
                 (filter over stats))
     <= (1 * List.length (filter starve stats))
        * List.length (filter over stats))%nat).
  { apply flat_map_length_le. intros source _.
    apply flat_map_length_le. intros target _. apply matchPair_length. }
  fold over starve.
  remember (List.length (filter over stats)) as o.
  remember (List.length (filter starve stats)) as t.
  clear - Hsum Hpairs.
  assert (Hot : (1 * t * o <= 4)%nat).
  { destruct o as [|[|[|[|o]]]], t as [|[|[|[|t]]]]; cbn; lia. }
  lia.
Qed.

(** X16.  The transfer finder works product by product: its output is
    the transfers of each product on its own, one product after the other,
    and a product yields at most 4 of them. *)
Theorem findTransferOpportunities_length
  (products : list Product) (sales : list Sale) :
  findTransferOpportunities h products sales
  = flat_map (fun p => findTransferOpportunities h [p] sales) products
  /\ forall p,
       (List.length (findTransferOpportunities h [p] sales) <= 4)%nat.
Proof.
  unfold findTransferOpportunities. split.
  - apply flat_map_ext. intros p. cbn [flat_map]. now rewrite app_nil_r.
  - intros p. cbn [flat_map]. rewrite app_nil_r.
    apply transfersOfProduct_length.
Qed.

End TransferBounds.

Lemma findTransferOpportunities_neverSold_witness :
  findTransferOpportunities Sample.host [Sample.salt] Sample.marchSales = [].
Proof.
  apply findTransferOpportunities_neverSold.
  intros p [<-|[]]. repeat constructor.
Defined.

(** ** Insights: what each kind stands for *)

Section InsightsMore.

Variable h : Host.

Local Open Scope num_scope.

Lemma reorder_inv
  (products : list Product) (sales : list Sale) (i : StrategicInsight) :
  In i (flat_map (reorderOfProduct h sales) products) ->
  exists p,
    let v := calculateDemandVelocity h (product_id p) sales (lit 30 1) in
    let c := calculateInventoryCover (totalStockOf p) v in
    In p products /\ c < lit 14 1 /\ lit 1 2 < v
    /\ i = reorderInsight h p v c.
Proof.
  intros Hi. apply in_flat_map in Hi. destruct Hi as [p [Hp Hi]].
  unfold reorderOfProduct in Hi.
  match type of Hi with
  | In _ (if ?c then _ else _) => destruct c eqn:E; [|contradiction]
  end.
  apply andb_prop in E. destruct E as [Hc Hv].
  destruct Hi as [<-|[]]. exists p. cbv zeta. now repeat split.
Qed.

Lemma deadStock_inv
  (products : list Product) (sales : list Sale) (i : StrategicInsight) :
  In i (flat_map (deadStockOfProduct h sales) products) ->
  exists p,
    In p products
    /\ detectDeadStock h p sales (lit 90 1) = true
    /\ lit 1000 1 < capitalBlockedOf p
    /\ i = deadStockInsight h p.
Proof.
  intros Hi. apply in_flat_map in Hi. destruct Hi as [p [Hp Hi]].
  unfold deadStockOfProduct in Hi.
  destruct (detectDeadStock h p sales (lit 90 1)) eqn:Hd; [|contradiction].
  destruct (capitalBlockedOf p >? lit 1000 1) eqn:Hc; [|contradiction].
  destruct Hi as [<-|[]]. exists p. now repeat split.
Qed.

(** An insight of the output, by its action, comes from the scan that
    builds that action. *)
Lemma output_scan
  (products : list Product) (sales : list Sale) (i : StrategicInsight) :
  In i (generateStrategicInsights h products sales) ->
  (actionType i = REORDER ->
   In i (flat_map (reorderOfProduct h sales) products))
  /\ (actionType i = LIQUIDATE ->
      In i (flat_map (deadStockOfProduct h sales) products)).
Proof.
  intros Hi. apply generateStrategicInsights_In in Hi.
  unfold collectedInsights in Hi.
  pose proof (transfers_type h products sales) as HT.
  pose proof (deadStock_type h products sales) as HD.
  pose proof (reorder_type h products sales) as HR.
  rewrite Forall_forall in HT, HD, HR.
  apply in_app_or in Hi. destruct Hi as [Hi|Hi].
  - destruct (HT i Hi) as [Ha _]. rewrite Ha. split; discriminate.
  - apply in_app_or in Hi. destruct Hi as [Hi|Hi].
    + destruct (HD i Hi) as [Ha _]. rewrite Ha.
      split; [discriminate|now intros _].
    + destruct (HR i Hi) as [Ha _]. rewrite Ha.
      split; [now intros _|discriminate].
Qed.

Lemma half_pos (v : number) : lit 1 2 < v -> zero < v.
Proof.
  destruct v; num_unfold; try congruence. intros. qprop. lra.
Qed.

(** X17.  No product is told to reorder and to liquidate at once: a
    REORDER insight and a LIQUIDATE insight of one list are never about
    the same product id. *)
Theorem generateStrategicInsights_reorder_xor_liquidate
  (products : list Product) (sales : list Sale) (i j : StrategicInsight) :
  In i (generateStrategicInsights h products sales) ->
  In j (generateStrategicInsights h products sales) ->
  actionType i = REORDER -> actionType j = LIQUIDATE ->
  insightProduct i <> insightProduct j.
Proof.
  intros Hi Hj Ai Aj.
  apply (proj1 (output_scan _ _ _ Hi)) in Ai.
  apply (proj2 (output_scan _ _ _ Hj)) in Aj.
  destruct (reorder_inv _ _ _ Ai) as [p [_ [_ [Hv ->]]]].
  destruct (deadStock_inv _ _ _ Aj) as [q [_ [Hdead [_ ->]]]].
  unfold insightProduct. cbn [reorderInsight deadStockInsight metadata].
  intros E. rewrite E in Hv.
  assert (N : detectDeadStock h q sales (lit 90 1) = false).
  { apply (moving_not_dead h q sales 30 90).
    - reflexivity.
    - apply half_pos. exact Hv.
    - discriminate. }
  congruence.
Qed.

(** X18.  A REORDER insight is about a listed product that sold more than
    15 units in the last 30 days; with whole quantities its reorder
    quantity is a whole number, at least the quantity sold in these 30
    days and at most one unit above it. *)
Theorem generateStrategicInsights_reorder_quantity
  (products : list Product) (sales : list Sale) (i : StrategicInsight) :
  wholeSales sales ->
  In i (generateStrategicInsights h products sales) ->
  actionType i = REORDER ->
  exists p qty,
    let sold := windowQty h (product_id p) (lit 30 1) sales in
    In p products
    /\ (15 < sold)%Q
    /\ metadata i = ReorderMeta (product_id p) qty
    /\ is_integer qty
    /\ Fin sold <= qty
    /\ qty <= Fin sold + lit 1 1.
Proof.
  intros _ Hi Ai. apply (proj1 (output_scan _ _ _ Hi)) in Ai.
  destruct (reorder_inv _ _ _ Ai) as [p [Hp [_ [Hv ->]]]].
  exists p, (of_Z (Qceiling
                     (windowQty h (product_id p) (lit 30 1) sales))).
  cbv zeta. unfold lit in *.
  rewrite velocity_window in * by reflexivity.
  set (sold := windowQty h (product_id p) (Fin (30 # 1)) sales) in *.
  split; [exact Hp|].
  apply Fin_lt in Hv. rewrite Qred_correct in Hv.
  assert (Hsold : (15 < sold)%Q).
  { unfold Qdiv in Hv. change (/ (30 # 1))%Q with (1 # 30)%Q in Hv. lra. }
  split; [exact Hsold|]. split.
  - cbn [reorderInsight metadata]. unfold lit. cbn [mul Math_ceil].
    unfold of_Z. do 3 f_equal. apply Qceiling_comp.
    rewrite !Qred_correct. field.
  - split; [now exists (Qceiling sold)|].
    pose proof (Qle_ceiling sold) as Hup.
    pose proof (Qceiling_lt sold) as Hlow.
    unfold of_Z. cbn [add]. rewrite !Fin_le, Qred_correct.
    replace (Qceiling sold - 1)%Z with (Qceiling sold + -1)%Z in Hlow by lia.
    rewrite inject_Z_plus in Hlow. change (inject_Z (-1)) with (-1)%Q in Hlow.
    change (Z.pos 1 # 1)%Q with 1%Q. split; lra.
Qed.

Lemma totalStockOf_finite (p : Product) :
  exists t : Q, totalStockOf p = Fin t.
Proof.
  unfold totalStockOf. unfold zero. generalize 0%Q.
  induction (map snd (product_stock p)) as [|b l IH]; intros a;
    cbn [fold_left add]; [now exists a|apply IH].
Qed.

(** X19.  A LIQUIDATE insight is about a listed product with stock, with
    a cost that is present and positive, and with more than 1000 of
    capital (stock times cost) in that stock; it reports the total stock.
    A product without a cost never gets one. *)
Theorem generateStrategicInsights_liquidate
  (products : list Product) (sales : list Sale) (i : StrategicInsight) :
  In i (generateStrategicInsights h products sales) ->
  actionType i = LIQUIDATE ->
  exists p c,
    In p products
    /\ product_cost p = Some c /\ (0 < c)%Q
    /\ zero < totalStockOf p
    /\ lit 1000 1 < totalStockOf p * Fin c
    /\ metadata i = LiquidateMeta (product_id p) (totalStockOf p).
Proof.
  intros Hi Ai. apply (proj2 (output_scan _ _ _ Hi)) in Ai.
  destruct (deadStock_inv _ _ _ Ai) as [p [Hp [Hdead [Hcap ->]]]].
  unfold detectDeadStock in Hdead. apply andb_prop in Hdead.
  destruct Hdead as [Hstock _]. unfold capitalBlockedOf in Hcap.
  destruct (totalStockOf_finite p) as [t Ht]. rewrite Ht in *.
  unfold gtb, zero in Hstock. cbn [ltb] in Hstock. apply Qltb_true in Hstock.
  unfold field_or_zero, zero, lit in Hcap.
  destruct (product_cost p) as [c|] eqn:Hc; cbn [mul] in Hcap;
    apply Fin_lt in Hcap; rewrite Qred_correct in Hcap.
  - exists p, c. split; [exact Hp|]. split; [exact Hc|].
    split; [nra|]. split; [rewrite Ht; now apply Fin_lt|].
    split; [|reflexivity].
    rewrite Ht. unfold lit. cbn [mul]. apply Fin_lt.
    now rewrite Qred_correct.
  - exfalso. nra.
Qed.

End InsightsMore.

Lemma generateStrategicInsights_reorder_xor_liquidate_witness :
  ("p2" <> "p1")%string.
Proof.
  assert (Hi : In (reorderInsight Sample.host Sample.salt (lit 1 1) (lit 3 1))
                  (generateStrategicInsights Sample.host
                     [Sample.rice; Sample.salt] Sample.saltSales))
    by in_list.
  assert (Hj : In (deadStockInsight Sample.host Sample.rice)
                  (generateStrategicInsights Sample.host
                     [Sample.rice; Sample.salt] Sample.saltSales))
    by in_list.
  exact (generateStrategicInsights_reorder_xor_liquidate Sample.host
           [Sample.rice; Sample.salt] Sample.saltSales _ _
           Hi Hj eq_refl eq_refl).
Defined.

Lemma generateStrategicInsights_reorder_quantity_witness :
  exists p qty,
    let sold := windowQty Sample.host (product_id p) (lit 30 1)
                  Sample.saltSales in
    In p [Sample.salt]
    /\ (15 < sold)%Q
    /\ metadata (reorderInsight Sample.host Sample.salt (lit 1 1) (lit 3 1))
       = ReorderMeta (product_id p) qty
    /\ is_integer qty
    /\ (Fin sold <= qty)%num
    /\ (qty <= Fin sold + lit 1 1)%num.
Proof.
  assert (Hin : In (reorderInsight Sample.host Sample.salt (lit 1 1)
                      (lit 3 1))
                   (generateStrategicInsights Sample.host [Sample.salt]
                      Sample.saltSales))
    by in_list.
  apply (generateStrategicInsights_reorder_quantity Sample.host
           [Sample.salt] Sample.saltSales _ ltac:(whole_sales) Hin eq_refl).
Defined.

Lemma generateStrategicInsights_liquidate_witness :
  exists p c,
    In p [Sample.rice] /\ product_cost p = Some c /\ (0 < c)%Q.
Proof.
  assert (Hin : In (deadStockInsight Sample.host Sample.rice)
                   (generateStrategicInsights Sample.host [Sample.rice] []))
    by in_list.
  destruct (generateStrategicInsights_liquidate Sample.host
              [Sample.rice] [] _ Hin eq_refl)
    as [p [c [Hp [Hc [Hpos _]]]]].
  exists p, c. split; [exact Hp|]. split; [exact Hc|exact Hpos].
Defined.

Section InsightsOrder.

Variable h : Host.

Local Open Scope num_scope.

Lemma output_reorders_first (products : list Product) (sales : list Sale) :
  generateStrategicInsights h products sales
  = firstn 5 (flat_map (reorderOfProduct h sales) products
              ++ findTransferOpportunities h products sales
              ++ flat_map (deadStockOfProduct h sales) products).
Proof.
  unfold generateStrategicInsights, slice0.
  now rewrite Array_sort_byPriority, rankedByCategory_collected.
Qed.

(** X20.  Reorders take the places first: with at most 5 reorder insights
    every one of them is returned, and with 5 or more the list holds the
    first 5 reorders and nothing else. *)
Theorem generateStrategicInsights_reorders_first
  (products : list Product) (sales : list Sale) :
  let reorders := flat_map (reorderOfProduct h sales) products in
  let out := generateStrategicInsights h products sales in
  ((List.length reorders <= 5)%nat -> forall i, In i reorders -> In i out)
  /\ ((5 <= List.length reorders)%nat -> out = firstn 5 reorders).
Proof.
  intros reorders out. unfold out. rewrite output_reorders_first.
  fold reorders. rewrite firstn_app. split.
  - intros Hlen i Hi. apply in_or_app. left.
    now rewrite firstn_all2.
  - intros Hlen.
    replace (5 - List.length reorders)%nat with 0%nat by lia.
    cbn [firstn]. apply app_nil_r.
Qed.

(** X21.  When no sale holds any of the products, so in particular
    without sales, every insight returned is a LIQUIDATE insight. *)
Theorem generateStrategicInsights_neverSold
  (products : list Product) (sales : list Sale) (i : StrategicInsight) :
  (forall p, In p products -> neverSold (product_id p) sales) ->
  In i (generateStrategicInsights h products sales) ->
  actionType i = LIQUIDATE.
Proof.
  intros Hn Hi. apply generateStrategicInsights_In in Hi.
  unfold collectedInsights in Hi.
  apply in_app_or in Hi. destruct Hi as [Hi|Hi].
  - exfalso. destruct (transfer_inv h _ _ _ Hi) as [p [src [dst H]]].
    cbv zeta in H. destruct H as [Hp [_ [_ [_ [_ [Hvel _]]]]]].
    cbn [locStatOf loc_velocity] in Hvel. unfold lit in Hvel.
    rewrite (velocity_neverSold h _ _
               (neverSold_salesAt _ dst _ (Hn p Hp))) in Hvel
      by reflexivity.
    discriminate Hvel.
  - apply in_app_or in Hi. destruct Hi as [Hi|Hi].
    + pose proof (deadStock_type h products sales) as HD.
      rewrite Forall_forall in HD. now destruct (HD i Hi).
    + exfalso. destruct (reorder_inv h _ _ _ Hi) as [p [Hp [_ [Hv _]]]].
      unfold lit in Hv.
      rewrite (velocity_neverSold h _ _ (Hn p Hp)) in Hv by reflexivity.
      discriminate Hv.
Qed.

End InsightsOrder.

Lemma generateStrategicInsights_reorders_first_witness :
  In (reorderInsight Sample.host Sample.salt (lit 1 1) (lit 3 1))
     (generateStrategicInsights Sample.host [Sample.rice; Sample.salt]
        Sample.saltSales).
Proof.
  apply (proj1 (generateStrategicInsights_reorders_first Sample.host
                  [Sample.rice; Sample.salt] Sample.saltSales)).
  - vm_compute. lia.
  - in_list.
Defined.

Lemma generateStrategicInsights_neverSold_witness :
  actionType (deadStockInsight Sample.host Sample.rice) = LIQUIDATE.
Proof.
  apply (generateStrategicInsights_neverSold Sample.host
           [Sample.rice] Sample.saltSales).
  - intros p [<-|[]]. repeat constructor.
  - in_list.
Defined.

(** ** Forecasts: one per product, trend by share, history *)

Section SortPermutation.

Context {A : Type}.
Variable cmp : A -> A -> number.

Lemma sort_insert_Permutation (x : A) (l : list A) :
  Permutation (sort_insert cmp x l) (x :: l).
Proof.
  induction l as [|a l IH]; cbn [sort_insert]; [reflexivity|].
  destruct (cmp x a >? zero)%num; [|reflexivity].
  rewrite IH. apply perm_swap.
Qed.

Lemma Array_sort_Permutation (l : list A) :
  Permutation (Array_sort cmp l) l.
Proof.
  induction l as [|a l IH]; cbn [Array_sort fold_right]; [reflexivity|].
  fold (Array_sort cmp l). rewrite sort_insert_Permutation.
  now apply perm_skip.
Qed.

End SortPermutation.

Section ForecastsMore.

Variable h : Host.

Local Open Scope num_scope.

(** X22.  There is one forecast per product: the list of forecasts is as
    long as the list of products and carries the same product ids, in
    another order. *)
Theorem generateProductForecasts_per_product
  (products : list Product) (sales : list Sale) :
  let out := generateProductForecasts h products sales in
  List.length out = List.length products
  /\ Permutation (map productId out) (map product_id products).
Proof.
  intros out. unfold out, generateProductForecasts. split.
  - now rewrite Array_sort_length, length_map.
  - rewrite (Permutation_map productId (Array_sort_Permutation _ _)).
    rewrite map_map. reflexivity.
Qed.

Lemma add_nonneg (a q : Q) :
  (0 <= a)%Q -> (0 <= q)%Q ->
  exists a', Fin a + Fin q = Fin a' /\ (0 <= a')%Q.
Proof.
  intros Ha Hq. cbn [add]. eexists. split; [reflexivity|].
  rewrite Qred_correct. lra.
Qed.

Lemma accumulateSale_nonneg
  (productId : string) (d30 d60 : Date.t) (w : Windows) (s : Sale) :
  Forall (fun it => (0 <= item_quantity it)%Q) (sale_items s) ->
  nonnegWindows w ->
  nonnegWindows (accumulateSale h productId d30 d60 w s).
Proof.
  intros Hs [c [pv [Hc [Hp [Hc0 Hp0]]]]]. unfold accumulateSale.
  destruct (findItem productId (sale_items s)) as [it|] eqn:Ef;
    [|now exists c, pv].
  assert (Hq : (0 <= item_quantity it)%Q).
  { unfold findItem in Ef. apply find_some in Ef.
    rewrite Forall_forall in Hs. now apply Hs. }
  destruct (Date.geb (Date_parse h (sale_date s)) d30);
    [|destruct (Date.geb (Date_parse h (sale_date s)) d60)];
    unfold nonnegWindows; cbn [currentQty previousQty]; rewrite Hc, Hp.
  - destruct (add_nonneg c _ Hc0 Hq) as [c' [E Hc']].
    exists c', pv. now rewrite E.
  - destruct (add_nonneg pv _ Hp0 Hq) as [pv' [E Hp']].
    exists c, pv'. now rewrite E.
  - now exists c, pv.
Qed.

Lemma windowsOf_nonneg (p : Product) (sales : list Sale) :
  nonnegSales sales -> nonnegWindows (windowsOf h p sales).
Proof.
  intros Hn. unfold windowsOf.
  assert (Hf : nonnegSales
                 (filter (fun s => hasItem (product_id p) (sale_items s))
                         sales)).
  { unfold nonnegSales in *. rewrite Forall_forall in *.
    intros s Hs. apply filter_In in Hs. now apply Hn. }
  revert Hf.
  generalize (filter (fun s => hasItem (product_id p) (sale_items s)) sales).
  intros l Hl.
  assert (H0 : nonnegWindows
                 {| currentQty := zero; previousQty := zero;
                    dailyHistory := [] |}).
  { exists 0%Q, 0%Q. repeat split; discriminate. }
  revert H0. generalize {| currentQty := zero; previousQty := zero;
                           dailyHistory := [] |}.
  induction Hl as [|s l Hs _ IH]; intros w Hw; cbn [fold_left];
    [exact Hw|].
  apply IH. now apply accumulateSale_nonneg.
Qed.

Lemma growth_share (c pv : Q) :
  (0 < pv)%Q ->
  exists g : Q,
    growthRateOf (Fin c) (Fin pv) = Fin g
    /\ ((20 <= g)%Q <-> ((12 # 10) * pv <= c)%Q)
    /\ ((g <= -20)%Q <-> (c <= (8 # 10) * pv)%Q).
Proof.
  intros Hp. unfold growthRateOf, gtb, zero, lit. cbn [ltb].
  replace (Qltb 0 pv) with true by (symmetry; now apply Qltb_true).
  cbn [sub]. rewrite Fin_div by lra. cbn [mul].
  eexists. split; [reflexivity|].
  rewrite !Qred_correct.
  set (x := ((c - pv) / pv)%Q).
  assert (Hx : (x * pv == c - pv)%Q) by (unfold x; field; lra).
  split; split; intros H; nra.
Qed.

Lemma trendOf_share (c pv : Q) :
  (0 <= c)%Q -> (0 <= pv)%Q ->
  trendOf (Fin c) (Fin pv) (growthRateOf (Fin c) (Fin pv))
  = trendByShare c pv.
Proof.
  intros Hc Hp. unfold trendOf, trendByShare, gtb, zero. cbn [strict_eqb ltb].
  destruct (Qeq_bool pv 0) eqn:E0; cbn [andb].
  - destruct (Qltb 0 c) eqn:Ec; [reflexivity|]. qprop.
    unfold growthRateOf, gtb, zero. cbn [ltb].
    replace (Qltb 0 pv) with false by (symmetry; apply Qltb_false; lra).
    replace (Qltb 0 c) with false by (symmetry; now apply Qltb_false).
    reflexivity.
  - qprop. assert (Hp' : (0 < pv)%Q) by lra.
    destruct (growth_share c pv Hp') as [g [-> [Hhigh Hlow]]].
    unfold geb, lit, neg. cbn [leb].
    destruct (Qle_bool ((12 # 10) * pv) c) eqn:E1; qprop.
    + replace (Qle_bool 20 g) with true; [reflexivity|].
      symmetry. apply Qle_bool_iff. now apply Hhigh.
    + replace (Qle_bool 20 g) with false
        by (symmetry; apply Qle_bool_false;
            destruct (Qlt_le_dec g 20) as [L|L]; [exact L|];
            apply Hhigh in L; lra).
      destruct (Qle_bool c ((8 # 10) * pv)) eqn:E2; qprop.
      * replace (Qle_bool g (Qred (- (20 # 1)))) with true; [reflexivity|].
        symmetry. apply Qle_bool_iff. rewrite Qred_correct. now apply Hlow.
      * replace (Qle_bool g (Qred (- (20 # 1)))) with false; [reflexivity|].
        symmetry. apply Qle_bool_false. rewrite Qred_correct.
        destruct (Qlt_le_dec (- (20 # 1)) g) as [L|L]; [exact L|].
        apply Hlow in L. lra.
Qed.

(** X23.  With sales in whole quantities, none of them negative, the two
    window quantities of a forecast are finite and not negative, and its
    trend follows from their ratio: New without previous sales but with
    current ones, High Growth from 120% of the previous quantity on,
    Declining up to 80% of it, Stable otherwise (also when nothing was
    sold). *)
Theorem generateProductForecasts_trend_by_share
  (products : list Product) (sales : list Sale) (f : ProductForecast) :
  wholeSales sales ->
  nonnegSales sales ->
  In f (generateProductForecasts h products sales) ->
  exists c pv : Q,
    currentMonthlySales f = Fin c /\ previousMonthlySales f = Fin pv
    /\ (0 <= c)%Q /\ (0 <= pv)%Q
    /\ trend f = trendByShare c pv.
Proof.
  intros _ Hn Hf. apply generateProductForecasts_In in Hf.
  destruct Hf as [p [_ ->]].
  destruct (windowsOf_nonneg p sales Hn) as [c [pv [Hc [Hp [Hc0 Hp0]]]]].
  exists c, pv.
  cbn [forecastOf currentMonthlySales previousMonthlySales trend].
  rewrite Hc, Hp. repeat split; try assumption.
  now apply trendOf_share.
Qed.

End ForecastsMore.

Section ForecastHistory.

Variable h : Host.

Local Open Scope num_scope.

Lemma windowsOf_neverSold (p : Product) (sales : list Sale) :
  neverSold (product_id p) sales ->
  windowsOf h p sales
  = {| currentQty := zero; previousQty := zero; dailyHistory := [] |}.
Proof.
  intros Hn. unfold windowsOf.
  replace (filter (fun s => hasItem (product_id p) (sale_items s)) sales)
    with (@nil Sale); [reflexivity|].
  symmetry. induction Hn as [|s l Hs _ IH]; cbn [filter]; [reflexivity|].
  now rewrite Hs.
Qed.

(** X24.  A product that no sale holds still gets its forecast: nothing
    sold in either window, growth 0, trend Stable, forecast 0 and an empty
    history. *)
Theorem generateProductForecasts_neverSold
  (products : list Product) (sales : list Sale) (p : Product) :
  In p products -> neverSold (product_id p) sales ->
  In {| productId := product_id p;
        name := product_name p;
        currentMonthlySales := zero;
        previousMonthlySales := zero;
        growthRate := zero;
        trend := Stable;
        forecastedSales := zero;
        confidence := lit 85 100;
        history := [] |}
     (generateProductForecasts h products sales).
Proof.
  intros Hp Hn. apply generateProductForecasts_In.
  exists p. split; [exact Hp|].
  unfold forecastOf. now rewrite (windowsOf_neverSold p sales Hn).
Qed.

Lemma totalOf_Fin_cons (v : number) (l : list number) (t : Q) :
  fold_right add zero (v :: l) = Fin t ->
  exists a b, v = Fin a /\ fold_right add zero l = Fin b
              /\ (t == a + b)%Q.
Proof.
  cbn [fold_right].
  destruct v as [a| | |], (fold_right add zero l) as [b| | |];
    cbn [add]; try discriminate.
  intros E. exists a, b.
  split; [reflexivity|]. split; [reflexivity|].
  assert (E' : t = Qred (a + b)) by congruence.
  rewrite E'. apply Qred_correct.
Qed.

(** Adding a quantity under a key adds it to the total. *)
Lemma assign_total (key : string) (q : Q) (m : list (string * number)) :
  forall t : Q,
  fold_right add zero (map snd m) = Fin t ->
  exists t' : Q,
    fold_right add zero
      (map snd
         (assign key
            (match lookup key m with
             | Some v => or_zero v
             | None => zero
             end + Fin q) m)) = Fin t'
    /\ (t' == t + q)%Q.
Proof.
  induction m as [|[k v] rest IH]; intros t Ht.
  - cbn [lookup assign map snd fold_right] in *. unfold zero in *.
    injection Ht as <-. cbn [add]. eexists. split; [reflexivity|].
    rewrite !Qred_correct. ring.
  - cbn [map snd] in Ht.
    destruct (totalOf_Fin_cons _ _ _ Ht) as [a [b [-> [Hb Hab]]]].
    cbn [lookup assign]. destruct (String.eqb k key).
    + cbn [map snd fold_right or_zero]. rewrite Hb. cbn [add].
      eexists. split; [reflexivity|]. rewrite !Qred_correct, Hab. ring.
    + destruct (IH b Hb) as [t' [Ht' Hq]].
      cbn [map snd fold_right]. rewrite Ht'. cbn [add].
      eexists. split; [reflexivity|]. rewrite Qred_correct, Hq, Hab. ring.
Qed.

Lemma accumulateSale_balanced
  (productId : string) (a b : Z) (w : Windows) (s : Sale) :
  (b <= a)%Z ->
  balancedWindows w ->
  balancedWindows (accumulateSale h productId (Some a) (Some b) w s).
Proof.
  intros Hba [c [pv [t [Hc [Hp [Ht Hsum]]]]]]. unfold accumulateSale.
  destruct (findItem productId (sale_items s)) as [it|];
    [|now exists c, pv, t].
  destruct (Date_parse h (sale_date s)) as [tv|] eqn:Hd.
  - cbn [Date.geb].
    destruct (assign_total
                (before_T (Date_toISOString h tv)) (item_quantity it)
                (dailyHistory w) t Ht) as [t' [Ht' Hq]].
    destruct (Z.leb_spec a tv) as [H30|H30].
    + replace (b <=? tv)%Z with true by (symmetry; apply Z.leb_le; lia).
      unfold balancedWindows. cbn [currentQty previousQty dailyHistory].
      rewrite Hc, Hp, Ht'. cbn [add].
      eexists _, pv, t'.
      split; [reflexivity|]. split; [reflexivity|]. split; [reflexivity|].
      rewrite Qred_correct, Hq, Hsum. ring.
    + destruct (Z.leb_spec b tv) as [H60|H60].
      * unfold balancedWindows. cbn [currentQty previousQty dailyHistory].
        rewrite Hc, Hp, Ht'. cbn [add].
        eexists c, _, t'.
        split; [reflexivity|]. split; [reflexivity|]. split; [reflexivity|].
        rewrite Qred_correct, Hq, Hsum. ring.
      * now exists c, pv, t.
  - cbn [Date.geb]. now exists c, pv, t.
Qed.

Lemma windowsOf_balanced (p : Product) (sales : list Sale) :
  balancedWindows (windowsOf h p sales).
Proof.
  unfold windowsOf.
  destruct (daysAgo_near h 30) as [a [Ha [Ha1 _]]].
  destruct (daysAgo_near h 60) as [b [Hb [_ Hb2]]].
  change (of_Z 30) with (lit 30 1) in Ha.
  change (of_Z 60) with (lit 60 1) in Hb.
  rewrite Ha, Hb.
  generalize (filter (fun s => hasItem (product_id p) (sale_items s)) sales).
  intros l.
  assert (H0 : balancedWindows
                 {| currentQty := zero; previousQty := zero;
                    dailyHistory := [] |}).
  { exists 0%Q, 0%Q, 0%Q.
    split; [reflexivity|]. split; [reflexivity|]. split; reflexivity. }
  revert H0. generalize {| currentQty := zero; previousQty := zero;
                           dailyHistory := [] |}.
  induction l as [|s l IH]; intros w Hw; cbn [fold_left]; [exact Hw|].
  apply IH. apply accumulateSale_balanced; [lia|exact Hw].
Qed.

Lemma totalOf_Permutation (l1 l2 : list number) :
  Permutation l1 l2 ->
  forall t, fold_right add zero l1 = Fin t ->
  exists t', fold_right add zero l2 = Fin t' /\ (t' == t)%Q.
Proof.
  induction 1 as [|v l1 l2 _ IH|v v' l|l1 l2 l3 _ IH1 _ IH2]; intros t Ht.
  - exists t. split; [exact Ht|reflexivity].
  - destruct (totalOf_Fin_cons _ _ _ Ht) as [a [b [-> [Hb Hab]]]].
    destruct (IH b Hb) as [b' [Hb' Hq]].
    cbn [fold_right]. rewrite Hb'. cbn [add].
    eexists. split; [reflexivity|]. rewrite Qred_correct, Hq, Hab.
    reflexivity.
  - destruct (totalOf_Fin_cons _ _ _ Ht) as [a [b [-> [Hb Hab]]]].
    destruct (totalOf_Fin_cons _ _ _ Hb) as [a' [b' [-> [Hb' Hab']]]].
    cbn [fold_right]. rewrite Hb'. cbn [add].
    eexists. split; [reflexivity|].
    rewrite !Qred_correct, Hab, Hab'. ring.
  - destruct (IH1 t Ht) as [t1 [Ht1 Hq1]].
    destruct (IH2 t1 Ht1) as [t2 [Ht2 Hq2]].
    exists t2. split; [exact Ht2|]. now rewrite Hq2.
Qed.

(** X25.  With sales in whole quantities the history of a forecast keeps
    the books of its two windows: its daily values are finite and add up
    to the current quantity plus the previous one. *)
Theorem generateProductForecasts_history_total
  (products : list Product) (sales : list Sale) (f : ProductForecast) :
  wholeSales sales ->
  In f (generateProductForecasts h products sales) ->
  (totalOf (map point_value (history f))
   === currentMonthlySales f + previousMonthlySales f) = true.
Proof.
  intros _ Hf. apply generateProductForecasts_In in Hf.
  destruct Hf as [p [_ ->]].
  destruct (windowsOf_balanced p sales) as [c [pv [t [Hc [Hp [Ht Hsum]]]]]].
  cbn [forecastOf history currentMonthlySales previousMonthlySales].
  rewrite Hc, Hp. cbn [add]. unfold totalOf.
  set (points := map (fun e : string * number =>
                        {| point_date := fst e; point_value := snd e |})
                     (dailyHistory (windowsOf h p sales))).
  assert (Hperm : Permutation
                    (map snd (dailyHistory (windowsOf h p sales)))
                    (map point_value (Array_sort (byHistoryDate h) points))).
  { rewrite (Permutation_map point_value (Array_sort_Permutation _ points)).
    unfold points. rewrite map_map. reflexivity. }
  destruct (totalOf_Permutation _ _ Hperm t Ht) as [t' [Ht' Hq]].
  rewrite Ht'. cbn [strict_eqb]. apply Qeq_bool_iff.
  rewrite Qred_correct, Hq, Hsum. reflexivity.
Qed.

End ForecastHistory.

Section ForecastDays.

Variable h : Host.

Local Open Scope num_scope.

Lemma assign_keys {V : Type} (key : string) (v : V)
      (m : list (string * V)) (k : string) :
  In k (map fst (assign key v m)) <-> k = key \/ In k (map fst m).
Proof.
  induction m as [|[k' w] rest IH]; cbn [assign map fst In].
  - intuition.
  - destruct (String.eqb_spec k' key) as [->|Hne]; cbn [map fst In].
    + intuition.
    + rewrite IH. intuition.
Qed.

Lemma assign_NoDup {V : Type} (key : string) (v : V)
      (m : list (string * V)) :
  NoDup (map fst m) -> NoDup (map fst (assign key v m)).
Proof.
  induction m as [|[k' w] rest IH]; cbn [assign map fst]; intros Hm.
  - repeat constructor. intros [].
  - inversion Hm as [|x l Hnotin Hrest]; subst.
    destruct (String.eqb_spec k' key) as [->|Hne]; cbn [map fst].
    + now constructor.
    + constructor; [|now apply IH].
      rewrite assign_keys. intros [E|Hin]; [congruence|contradiction].
Qed.

Lemma accumulateSale_days
  (productId : string) (d30 d60 : Date.t) (w : Windows) (s : Sale) :
  NoDup (map fst (dailyHistory w)) ->
  NoDup (map fst (dailyHistory (accumulateSale h productId d30 d60 w s))).
Proof.
  intros Hw. unfold accumulateSale.
  destruct (findItem productId (sale_items s)) as [it|]; [|exact Hw].
  assert (Hd : NoDup (map fst
    match Date_parse h (sale_date s) with
    | Some tv =>
        if Date.geb (Date_parse h (sale_date s)) d60 then
          assign (before_T (Date_toISOString h tv))
            (match lookup (before_T (Date_toISOString h tv))
                          (dailyHistory w) with
             | Some v => or_zero v
             | None => zero
             end + Fin (item_quantity it)) (dailyHistory w)
        else dailyHistory w
    | None => dailyHistory w
    end)).
  { destruct (Date_parse h (sale_date s)) as [tv|]; [|exact Hw].
    destruct (Date.geb (Some tv) d60); [now apply assign_NoDup|exact Hw]. }
  destruct (Date.geb (Date_parse h (sale_date s)) d30);
    [|destruct (Date.geb (Date_parse h (sale_date s)) d60)]; exact Hd.
Qed.

Lemma windowsOf_days (p : Product) (sales : list Sale) :
  NoDup (map fst (dailyHistory (windowsOf h p sales))).
Proof.
  unfold windowsOf.
  generalize (filter (fun s => hasItem (product_id p) (sale_items s)) sales).
  intros l.
  assert (H0 : NoDup (map fst (dailyHistory
                 {| currentQty := zero; previousQty := zero;
                    dailyHistory := [] |}))) by constructor.
  revert H0. generalize {| currentQty := zero; previousQty := zero;
                           dailyHistory := [] |}.
  induction l as [|s l IH]; intros w Hw; cbn [fold_left]; [exact Hw|].
  apply IH. now apply accumulateSale_days.
Qed.

(** X26.  The history of a forecast has one point per calendar day: no
    date occurs twice. *)
Theorem generateProductForecasts_history_days
  (products : list Product) (sales : list Sale) (f : ProductForecast) :
  In f (generateProductForecasts h products sales) ->
  NoDup (map point_date (history f)).
Proof.
  intros Hf. apply generateProductForecasts_In in Hf.
  destruct Hf as [p [_ ->]]. cbn [forecastOf history].
  eapply Permutation_NoDup.
  - apply Permutation_sym, Permutation_map, Array_sort_Permutation.
  - rewrite map_map. cbn [point_date]. apply windowsOf_days.
Qed.

(** X27.  The forecasted sales are a whole number; with sales without
    negative quantities they are not negative, and unless the trend is
    Declining they are at least the current quantity. *)
Theorem generateProductForecasts_forecast_bounds
  (products : list Product) (sales : list Sale) (f : ProductForecast) :
  In f (generateProductForecasts h products sales) ->
  is_integer (forecastedSales f)
  /\ (nonnegSales sales ->
      zero <= forecastedSales f
      /\ (trend f <> Declining ->
          currentMonthlySales f <= forecastedSales f)).
Proof.
  intros Hf. apply generateProductForecasts_In in Hf.
  destruct Hf as [p [_ ->]].
  cbn [forecastOf forecastedSales currentMonthlySales trend]. split.
  - destruct (windowsOf_finite h p sales) as [Hc _].
    destruct (currentQty (windowsOf h p sales)) as [c| | |];
      try contradiction.
    match goal with
    | |- context [momentumFactorOf ?t] => destruct t
    end; cbn [momentumFactorOf mul lit Math_ceil]; eexists; reflexivity.
  - intros Hn.
    destruct (windowsOf_nonneg h p sales Hn) as [c [pv [Hc [Hp [Hc0 Hp0]]]]].
    rewrite Hc, Hp.
    match goal with
    | |- context [momentumFactorOf ?t] => destruct t
    end; unfold momentumFactorOf, lit, zero, of_Z;
      cbn [mul Math_ceil]; unfold of_Z;
      (split; [|intros Ht; try congruence]);
      apply Fin_le;
      match goal with
      | |- (_ <= inject_Z (Qceiling ?x))%Q =>
          pose proof (Qle_ceiling x) as Hceil;
          rewrite Qred_correct in Hceil at 1
      end; lra.
Qed.

End ForecastDays.

(** ** Aging score on an unreadable date *)

Section AgingMore.

Local Open Scope num_scope.

(** X28.  A last-movement date that is present but does not parse gives
    the score NaN, whatever the cover: only a missing date gives 0. *)
Theorem calculateAgingScore_invalid_date
  (h : Host) (text : string) (coverDays : number) :
  text <> EmptyString ->
  Date_parse h text = None ->
  calculateAgingScore h (Some text) coverDays = NaN.
Proof.
  intros Hne Hd. unfold calculateAgingScore.
  destruct text as [|c rest]; [now elim Hne|].
  rewrite Hd. unfold daysSince, now. cbn [Date.getTime of_Z sub].
  change (NaN / (lit 1000 1 * lit 3600 1 * lit 24 1)) with NaN.
  now destruct (coverDays === zero), coverDays.
Qed.

End AgingMore.

Section HistoryOrder.

Variable h : Host.

Local Open Scope num_scope.

Lemma byHistoryDate_byDate (x y : HistoryPoint) :
  datedPoint h x -> datedPoint h y ->
  (after (byHistoryDate h) x y = true -> byDate h y x)
  /\ (after (byHistoryDate h) x y = false -> byDate h x y).
Proof.
  unfold datedPoint, after, byHistoryDate, byDate, gtb.
  destruct (Date_parse h (point_date x)) as [tx|]; [|congruence].
  destruct (Date_parse h (point_date y)) as [ty|]; [|congruence].
  intros _ _. cbn [Date.getTime]. unfold of_Z. rewrite sub_pos_iff.
  split; intros E; qprop; rewrite <- ?Zlt_Qlt, <- ?Zle_Qle in E; lia.
Qed.

(** X29.  When the dates of its points read as valid dates, the history
    of a forecast is in ascending order of date. *)
Theorem generateProductForecasts_history_sorted
  (products : list Product) (sales : list Sale) (f : ProductForecast) :
  In f (generateProductForecasts h products sales) ->
  Forall (datedPoint h) (history f) ->
  Sorted (byDate h) (history f).
Proof.
  intros Hf Hd. apply generateProductForecasts_In in Hf.
  destruct Hf as [p [_ ->]]. cbn [forecastOf history] in *.
  apply (Array_sort_Sorted (byHistoryDate h) (datedPoint h) (byDate h)).
  - intros x y Hx Hy. now apply byHistoryDate_byDate.
  - intros x y Hx Hy. now apply byHistoryDate_byDate.
  - rewrite Forall_forall in *. intros x Hx. apply Hd.
    now apply Array_sort_In.
Qed.

End HistoryOrder.

(** ** The further properties at the sample records *)

Lemma generateProductForecasts_trend_by_share_witness :
  exists c pv : Q,
    currentMonthlySales
      (forecastOf Sample.host Sample.marchSales Sample.rice) = Fin c
    /\ trend (forecastOf Sample.host Sample.marchSales Sample.rice)
       = trendByShare c pv.
Proof.
  assert (Hin : In (forecastOf Sample.host Sample.marchSales Sample.rice)
                   (generateProductForecasts Sample.host [Sample.rice]
                      Sample.marchSales))
    by in_list.
  destruct (generateProductForecasts_trend_by_share Sample.host
              [Sample.rice] Sample.marchSales _
              ltac:(whole_sales)
              ltac:(repeat constructor; discriminate)
              Hin)
    as [c [pv [Hc [_ [_ [_ Ht]]]]]].
  exists c, pv. split; [exact Hc|exact Ht].
Defined.

Lemma generateProductForecasts_neverSold_witness :
  In {| productId := "p2"; name := "Salt";
        currentMonthlySales := zero; previousMonthlySales := zero;
        growthRate := zero; trend := Stable; forecastedSales := zero;
        confidence := lit 85 100; history := [] |}
     (generateProductForecasts Sample.host [Sample.salt] Sample.marchSales).
Proof.
  apply (generateProductForecasts_neverSold Sample.host
           [Sample.salt] Sample.marchSales Sample.salt).
  - left. reflexivity.
  - repeat constructor.
Defined.

Lemma generateProductForecasts_history_total_witness :
  map point_value
    (history (forecastOf SampleDays.host SampleDays.sales Sample.rice))
  = [lit 10 1; lit 20 1]
  /\ (totalOf (map point_value
                 (history (forecastOf SampleDays.host SampleDays.sales
                             Sample.rice)))
      === lit 20 1 + lit 10 1)%num = true.
Proof.
  split; [vm_compute; reflexivity|].
  apply (generateProductForecasts_history_total SampleDays.host
           [Sample.rice] SampleDays.sales).
  - whole_sales.
  - in_list.
Defined.

Lemma generateProductForecasts_history_days_witness :
  NoDup (map point_date
           (history (forecastOf Sample.host Sample.marchSales Sample.rice))).
Proof.
  apply (generateProductForecasts_history_days Sample.host
           [Sample.rice] Sample.marchSales).
  in_list.
Defined.

Lemma generateProductForecasts_forecast_bounds_witness :
  is_integer
    (forecastedSales (forecastOf Sample.host Sample.marchSales Sample.rice)).
Proof.
  apply (generateProductForecasts_forecast_bounds Sample.host
           [Sample.rice] Sample.marchSales).
  in_list.
Defined.

Lemma calculateAgingScore_invalid_date_witness :
  calculateAgingScore Sample.host (Some "yesterday"%string) (lit 4 1) = NaN.
Proof.
  apply calculateAgingScore_invalid_date.
  - discriminate.
  - reflexivity.
Defined.

Lemma generateProductForecasts_history_sorted_witness :
  map point_date
    (history (forecastOf SampleDays.host SampleDays.sales Sample.rice))
  = ["2024-02-15"; "2024-03-25"]%string
  /\ Sorted (byDate SampleDays.host)
       (history (forecastOf SampleDays.host SampleDays.sales Sample.rice)).
Proof.
  split; [vm_compute; reflexivity|].
  apply (generateProductForecasts_history_sorted SampleDays.host
           [Sample.rice] SampleDays.sales).
  - in_list.
  - vm_compute. repeat constructor; discriminate.
Defined.
